(** * my-chat-app: the message synchronisation engine of [src/app/chat/page.tsx]

    A shallow embedding of the chat page's message store and of the
    callbacks that update it (history load, optimistic send, the send's
    success and failure continuations, the realtime INSERT callback),
    followed by the properties of the store that the specification states.

    Modelling conventions.
    - React state ([useState]) is a record [ChatState]; a [setMessages]
      call with an updater function is the updater applied to that field.
    - An [async] function is cut at its [await]: the part before it returns
      the new state (and what the continuation closes over), the part after
      it takes the awaited response.
    - A callback or listener created by a render keeps the values of that
      render that it closes over; it takes them as arguments, and only the
      state that an updater function receives is the state of the moment.
    - Console errors, alerts and the requests sent to the database are kept
      in an effect log, most recent last.  [console.log] lines are
      diagnostics only and are left out.
    - A message [id] is [number | string]; database ids are integers.
    - [new Date(s).getTime()] belongs to the JavaScript runtime; it is a
      parameter [getTime] of the development.  Every [created_at] is taken
      to be a valid date, so the result is an integer number of
      milliseconds. *)

From Stdlib Require Import ZArith List String Ascii Bool Lia.
From Stdlib Require Import Sorted Permutation DecimalString.
From Stdlib Require DecimalPos DecimalZ.
Import ListNotations.
Local Open Scope string_scope.
Local Open Scope Z_scope.

(* ================================================================== *)
(** ** Runtime library: strings, arrays *)

(** [String.prototype.trim], on the code units this model of strings has
    (U+0000 to U+00FF): the white space and line terminators of that range. *)
Definition isWhiteSpace (c : ascii) : bool :=
  match N_of_ascii c with
  | 9%N | 10%N | 11%N | 12%N | 13%N | 32%N | 160%N => true
  | _ => false
  end.

Fixpoint trimStart (s : string) : string :=
  match s with
  | EmptyString => EmptyString
  | String c r => if isWhiteSpace c then trimStart r else s
  end.

Fixpoint trimEnd (s : string) : string :=
  match s with
  | EmptyString => EmptyString
  | String c r =>
      match trimEnd r with
      | EmptyString => if isWhiteSpace c then EmptyString else String c EmptyString
      | r' => String c r'
      end
  end.

Definition trim (s : string) : string := trimEnd (trimStart s).

(** [String.prototype.startsWith]. *)
Definition startsWith (s searchString : string) : bool := prefix searchString s.

(** [Array.prototype.sort(compareFn)]: a stable sort; [x] goes before [y]
    when [compareFn x y <= 0] and [x] came first.  Every call site sorts a
    freshly built array, so the sort is modelled as a function. *)
Section ArraySort.
Context {A : Type} (compareFn : A -> A -> Z).

Fixpoint insert (x : A) (l : list A) : list A :=
  match l with
  | [] => [x]
  | y :: l' => if 0 <? compareFn x y then y :: insert x l' else x :: l
  end.

Fixpoint sort (l : list A) : list A :=
  match l with
  | [] => []
  | x :: l' => insert x (sort l')
  end.
End ArraySort.

(** [a] occurs in the list strictly before an occurrence of [b]. *)
Inductive precedes {A : Type} (a b : A) : list A -> Prop :=
| precedes_here : forall l, In b l -> precedes a b (a :: l)
| precedes_later : forall x l, precedes a b l -> precedes a b (x :: l).

(* ================================================================== *)
(** ** Data model (page.tsx, lines 8-31) *)

Module Message.
(** [id: number | string]: a database id, or a client-side string. *)
Inductive Id : Type :=
| Num (n : Z)
| Str (s : string).

Record t : Type := mk {
  id : Id;
  content : string;
  created_at : string;
  sender_id : string;
  recipient_id : option string;
  group_id : option Z
}.

(** Strict equality [===] on ids: never true across the two types. *)
Definition id_eqb (a b : Id) : bool :=
  match a, b with
  | Num n, Num m => Z.eqb n m
  | Str s, Str s' => String.eqb s s'
  | _, _ => false
  end.

(** [id.toString()]. *)
Definition toString (i : Id) : string :=
  match i with
  | Num n => NilZero.string_of_int (Z.to_int n)
  | Str s => s
  end.

(** [msg.id.toString().startsWith('temp-')]. *)
Definition isTemp (m : t) : bool := startsWith (toString (id m)) "temp-".
End Message.

Module Profile.
Record t : Type := mk { id : string; username : string }.
End Profile.

Module Group.
Record t : Type := mk {
  id : Z;
  name : string;
  created_at : string;
  created_by : string
}.
End Group.

(** [ChatListItem]: the [type] tag with its [data], and the list key [id]. *)
Inductive ChatListItem : Type :=
| dm (data : Profile.t) (id : string)
| group (data : Group.t) (id : string).

Definition chat_id (c : ChatListItem) : string :=
  match c with dm _ i => i | group _ i => i end.

(** [Pick<Message, 'content' | 'sender_id' | 'recipient_id' | 'group_id'>]. *)
Record DbPayload : Type := {
  p_content : string;
  p_sender_id : string;
  p_recipient_id : option string;
  p_group_id : option Z
}.

(** Supabase's [{ data, error }] result; [error] carries its [message]. *)
Record Response (A : Type) : Type := {
  data : option A;
  error : option string
}.
Arguments data {A} _.
Arguments error {A} _.
Arguments Build_Response {A} _ _.

Record RealtimePostgresInsertPayload : Type := { new : Message.t }.

Inductive Effect : Type :=
| ConsoleError (label detail : string)
| Alert (text : string)
| DbInsert (row : DbPayload)
| DbSelect (chat : ChatListItem) (user : Profile.t).

(** The component state that the message logic reads and writes. *)
Record ChatState : Type := {
  messages : list Message.t;
  newMessage : string;
  selectedChat : option ChatListItem;
  currentUser : option Profile.t;
  effects : list Effect
}.

Definition setMessages (f : list Message.t -> list Message.t) (st : ChatState) : ChatState :=
  {| messages := f (messages st);
     newMessage := newMessage st;
     selectedChat := selectedChat st;
     currentUser := currentUser st;
     effects := effects st |}.

Definition setNewMessage (s : string) (st : ChatState) : ChatState :=
  {| messages := messages st;
     newMessage := s;
     selectedChat := selectedChat st;
     currentUser := currentUser st;
     effects := effects st |}.

Definition setSelectedChat (c : option ChatListItem) (st : ChatState) : ChatState :=
  {| messages := messages st;
     newMessage := newMessage st;
     selectedChat := c;
     currentUser := currentUser st;
     effects := effects st |}.

Definition emit (e : Effect) (st : ChatState) : ChatState :=
  {| messages := messages st;
     newMessage := newMessage st;
     selectedChat := selectedChat st;
     currentUser := currentUser st;
     effects := effects st ++ [e] |}.

(* ================================================================== *)
(** ** A clock for the worked examples *)

(** [new Date(s).getTime()] on the strings that [toISOString] produces,
    [YYYY-MM-DDTHH:mm:ss.sssZ].  The development is stated for every
    [getTime]; the worked examples run with this one. *)
Definition digitValue (c : ascii) : Z := Z.of_N (N_of_ascii c) - 48.

Fixpoint digitsValue (s : string) (acc : Z) : Z :=
  match s with
  | EmptyString => acc
  | String c r => digitsValue r (10 * acc + digitValue c)
  end.

Definition numberAt (s : string) (start len : nat) : Z :=
  digitsValue (substring start len s) 0.

Definition daysFromCivil (y m d : Z) : Z :=
  let y' := if m <=? 2 then y - 1 else y in
  let era := y' / 400 in
  let yoe := y' - era * 400 in
  let mp := (m + 9) mod 12 in
  let doy := (153 * mp + 2) / 5 + d - 1 in
  let doe := yoe * 365 + yoe / 4 - yoe / 100 + doy in
  era * 146097 + doe - 719468.

Definition isoTime (s : string) : Z :=
  let days := daysFromCivil (numberAt s 0 4) (numberAt s 5 2) (numberAt s 8 2) in
  (((days * 24 + numberAt s 11 2) * 60 + numberAt s 14 2) * 60 + numberAt s 17 2) * 1000
  + numberAt s 20 3.

(* ================================================================== *)
(** ** The chat page *)

Section Chat.

(** [new Date(created_at).getTime()]. *)
Variable getTime : string -> Z.

(** The comparator of every [sort] call in the page:
    [(a, b) => new Date(a.created_at).getTime() - new Date(b.created_at).getTime()]. *)
Definition byCreatedAt (a b : Message.t) : Z :=
  getTime (Message.created_at a) - getTime (Message.created_at b).

(** *** Realtime callback (lines 108-171) *)

(** Lines 117-127. *)
Definition isForActiveChat (currentUser : Profile.t) (selectedChat : ChatListItem)
           (incomingMessage : Message.t) : bool :=
  match selectedChat with
  | dm dmPartner _ =>
      ((String.eqb (Message.sender_id incomingMessage) (Profile.id currentUser)
        && match Message.recipient_id incomingMessage with
           | Some r => String.eqb r (Profile.id dmPartner)
           | None => false
           end)
       || (String.eqb (Message.sender_id incomingMessage) (Profile.id dmPartner)
           && match Message.recipient_id incomingMessage with
              | Some r => String.eqb r (Profile.id currentUser)
              | None => false
              end))
      && match Message.group_id incomingMessage with None => true | Some _ => false end
  | group g _ =>
      match Message.group_id incomingMessage with
      | Some gid => Z.eqb gid (Group.id g)
      | None => false
      end
      && match Message.recipient_id incomingMessage with None => true | Some _ => false end
  end.

(** Lines 134-135. *)
Definition messageExists (messages : list Message.t) (newMessage : Message.t) : bool :=
  existsb (fun msg =>
             Message.id_eqb (Message.id msg) (Message.id newMessage)
             || (Message.isTemp msg
                 && String.eqb (Message.content msg) (Message.content newMessage)
                 && String.eqb (Message.sender_id msg) (Message.sender_id newMessage)))
          messages.

(** The [map] callback of lines 148-161: whether it sets [replaced], and
    the element it returns. *)
Definition replaceCallback (incomingMessage msg : Message.t) : bool * Message.t :=
  if Message.isTemp msg
     && String.eqb (Message.sender_id msg) (Message.sender_id incomingMessage)
     && String.eqb (Message.content msg) (Message.content incomingMessage)
  then (true, incomingMessage)
  else if Message.id_eqb (Message.id msg) (Message.id incomingMessage)
  then (true, incomingMessage)
  else (false, msg).

(** The [setMessages] updater of lines 138-169. *)
Definition mergeIncoming (currentUser : Profile.t) (incomingMessage : Message.t)
           (prevMessages : list Message.t) : list Message.t :=
  if negb (String.eqb (Message.sender_id incomingMessage) (Profile.id currentUser)) then
    if messageExists prevMessages incomingMessage then prevMessages
    else sort byCreatedAt (prevMessages ++ [incomingMessage])
  else
    let replaced := existsb (fun msg => fst (replaceCallback incomingMessage msg)) prevMessages in
    let updatedMessages := map (fun msg => snd (replaceCallback incomingMessage msg)) prevMessages in
    if negb replaced && negb (messageExists updatedMessages incomingMessage)
    then sort byCreatedAt (updatedMessages ++ [incomingMessage])
    else sort byCreatedAt updatedMessages.

Definition handleRealtimeMessageCallback (payload : RealtimePostgresInsertPayload)
           (st : ChatState) : ChatState :=
  let incomingMessage := new payload in
  match currentUser st, selectedChat st with
  | Some user, Some chat =>
      if negb (isForActiveChat user chat incomingMessage) then st
      else setMessages (mergeIncoming user incomingMessage) st
  | _, _ => st
  end.

(** The callback as one render builds it ([useCallback], lines 108-171): it
    tests the event against the [currentUser] and [selectedChat] of that
    render, which it closes over, while the updater of [setMessages] runs on
    the store of the moment.  [handleRealtimeMessageCallback] above is the
    callback of the render that shows the state. *)
Definition callbackOfRender (user : option Profile.t) (chat : option ChatListItem)
           (payload : RealtimePostgresInsertPayload) (st : ChatState) : ChatState :=
  let incomingMessage := new payload in
  match user, chat with
  | Some user, Some chat =>
      if negb (isForActiveChat user chat incomingMessage) then st
      else setMessages (mergeIncoming user incomingMessage) st
  | _, _ => st
  end.

(** The listener that the effect registers on the channel it opens (lines
    206-250; 219-234 for a direct chat, 246-248 for a group).  [user] and
    [chat] are the [currentUser] and [selectedChat] of the render that
    opened the channel: the listener and the callback it calls keep them
    until the channel is removed (line 263), whatever chat is on screen
    when an event arrives. *)
Definition channelListener (user : Profile.t) (chat : ChatListItem)
           (payload : RealtimePostgresInsertPayload) (st : ChatState) : ChatState :=
  let msg := new payload in
  match chat with
  | dm partner _ =>
      if negb (String.eqb (Profile.id partner) "")
         && ((String.eqb (Message.sender_id msg) (Profile.id user)
              && match Message.recipient_id msg with
                 | Some r => String.eqb r (Profile.id partner)
                 | None => false
                 end)
             || (String.eqb (Message.sender_id msg) (Profile.id partner)
                 && match Message.recipient_id msg with
                    | Some r => String.eqb r (Profile.id user)
                    | None => false
                    end))
         && match Message.group_id msg with None => true | Some _ => false end
      then callbackOfRender (Some user) (Some chat) payload st
      else st
  | group _ _ => callbackOfRender (Some user) (Some chat) payload st
  end.

(** The listener of the channel that belongs to the chat on screen, the
    one opened by the render that shows the state; without a chat or a user
    no channel is open (lines 174-177). *)
Definition openChatListener (payload : RealtimePostgresInsertPayload)
           (st : ChatState) : ChatState :=
  match selectedChat st, currentUser st with
  | Some chat, Some user => channelListener user chat payload st
  | _, _ => st
  end.

(** *** Conversation effect and history load (lines 173-195) *)

(** The effect body up to the call of [fetchMessages]: with no chat or no
    user the store is emptied, otherwise the query is issued. *)
Definition selectedChatEffect (st : ChatState) : ChatState :=
  match selectedChat st, currentUser st with
  | Some chat, Some user => emit (DbSelect chat user) st
  | _, _ => setMessages (fun _ => []) st
  end.

(** [fetchMessages] after its [await] (lines 192-193). *)
Definition fetchMessages_resume (resp : Response (list Message.t))
           (st : ChatState) : ChatState :=
  match error resp with
  | Some message => emit (ConsoleError "Error fetching messages:" message) st
  | None => setMessages (fun _ => match data resp with Some d => d | None => [] end) st
  end.

(** The [onClick] of a chat-list row (lines 404-406, 422-424) and the
    effect it triggers. *)
Definition onChatClick (chat : ChatListItem) (st : ChatState) : ChatState :=
  let differs :=
    match selectedChat st with
    | Some c => negb (String.eqb (chat_id c) (chat_id chat))
    | None => true
    end in
  if differs then selectedChatEffect (setSelectedChat (Some chat) st) else st.

(** *** Sending (lines 269-317) *)

(** What the continuation of [handleSendMessage] closes over. *)
Record PendingSend : Type := {
  tempMessage : Message.t;
  dbPayload : DbPayload
}.

(** [handleSendMessage] up to its [await].  [stamp] is the
    [`${Date.now()}-${Math.random().toString(36).substr(2, 9)}`] part of the
    temporary id and [now] is [new Date().toISOString()]. *)
Definition handleSendMessage (stamp now : string) (st : ChatState)
  : ChatState * option PendingSend :=
  match String.eqb (trim (newMessage st)) "", selectedChat st, currentUser st with
  | false, Some chat, Some user =>
      let tempId := "temp-" ++ stamp in
      let payload :=
        match chat with
        | dm partner _ =>
            {| p_content := newMessage st; p_sender_id := Profile.id user;
               p_recipient_id := Some (Profile.id partner); p_group_id := None |}
        | group g _ =>
            {| p_content := newMessage st; p_sender_id := Profile.id user;
               p_recipient_id := None; p_group_id := Some (Group.id g) |}
        end in
      let tempMsg :=
        Message.mk (Message.Str tempId) (p_content payload) now
                   (p_sender_id payload) (p_recipient_id payload) (p_group_id payload) in
      let st1 := setMessages (fun prev => sort byCreatedAt (prev ++ [tempMsg])) st in
      let st2 := setNewMessage "" st1 in
      (emit (DbInsert payload) st2, Some {| tempMessage := tempMsg; dbPayload := payload |})
  | _, _, _ => (st, None)
  end.

(** [handleSendMessage] after its [await] (lines 303-316). *)
Definition handleSendMessage_resume (pending : PendingSend) (resp : Response Message.t)
           (st : ChatState) : ChatState :=
  match error resp with
  | Some message =>
      let st1 := emit (ConsoleError "Error sending message:" message) st in
      let st2 := setMessages
                   (filter (fun msg => negb (Message.id_eqb (Message.id msg)
                                               (Message.id (tempMessage pending))))) st1 in
      emit (Alert ("Error: " ++ message)) st2
  | None =>
      match data resp with
      | Some d =>
          setMessages
            (fun prev =>
               match find (fun m => Message.id_eqb (Message.id m) (Message.id d)) prev with
               | Some _ =>
                   sort byCreatedAt
                     (map (fun m => if Message.id_eqb (Message.id m) (Message.id d)
                                    then d else m) prev)
               | None =>
                   sort byCreatedAt
                     (map (fun msg => if Message.id_eqb (Message.id msg)
                                           (Message.id (tempMessage pending))
                                      then d else msg) prev)
               end) st
      | None => st
      end
  end.

(** *** The page as a transition system

    [Push] is an insert event that reaches the listener of the chat on
    screen.  [StalePush] is one that reaches the listener of a channel
    opened earlier for [chat] and [user], whose removal has not taken
    effect yet. *)

Inductive Event : Type :=
| Click (chat : ChatListItem)
| HistoryLoaded (resp : Response (list Message.t))
| Typed (text : string)
| Submit (stamp now : string)
| SendSettled (pending : PendingSend) (resp : Response Message.t)
| Push (payload : RealtimePostgresInsertPayload)
| StalePush (user : Profile.t) (chat : ChatListItem)
            (payload : RealtimePostgresInsertPayload).

Definition step (ev : Event) (st : ChatState) : ChatState :=
  match ev with
  | Click chat => onChatClick chat st
  | HistoryLoaded resp => fetchMessages_resume resp st
  | Typed text => setNewMessage text st
  | Submit stamp now => fst (handleSendMessage stamp now st)
  | SendSettled pending resp => handleSendMessage_resume pending resp st
  | Push payload => openChatListener payload st
  | StalePush user chat payload => channelListener user chat payload st
  end.

Definition run (evs : list Event) (st : ChatState) : ChatState :=
  fold_left (fun s ev => step ev s) evs st.

End Chat.

(** Ascending order by a key, and the store's order by [created_at]. *)
Definition sortedBy {A : Type} (key : A -> Z) (l : list A) : Prop :=
  StronglySorted (fun a b => key a <= key b) l.

Definition createdAt (getTime : string -> Z) (m : Message.t) : Z :=
  getTime (Message.created_at m).

Definition sorted (getTime : string -> Z) (l : list Message.t) : Prop :=
  sortedBy (createdAt getTime) l.



(** No database id occurs twice among the entries. *)
Fixpoint persistedIds (l : list Message.t) : list Z :=
  match l with
  | [] => []
  | m :: l' =>
      match Message.id m with
      | Message.Num n => n :: persistedIds l'
      | Message.Str _ => persistedIds l'
      end
  end.

Definition noDuplicatePersistedIds (l : list Message.t) : Prop :=
  NoDup (persistedIds l).

(** The scoping rule in the specification's words: a direct conversation
    takes the two directions between the user and the counterpart with no
    group tag, a group conversation takes its group tag with no recipient. *)
Definition Scoping_spec (u : Profile.t) (c : ChatListItem) (E : Message.t) : Prop :=
  match c with
  | dm counterpart _ =>
      ((Message.sender_id E = Profile.id u
        /\ Message.recipient_id E = Some (Profile.id counterpart))
       \/ (Message.sender_id E = Profile.id counterpart
           /\ Message.recipient_id E = Some (Profile.id u)))
      /\ Message.group_id E = None
  | group g _ =>
      Message.group_id E = Some (Group.id g) /\ Message.recipient_id E = None
  end.

(** The flag and the element returned by the [map] callback of the merge. *)
Definition hit (M msg : Message.t) : bool := fst (replaceCallback M msg).
Definition put (M msg : Message.t) : Message.t := snd (replaceCallback M msg).

(* ================================================================== *)
(** ** Worked examples: the data *)

Module Example.
Definition alice : Profile.t := Profile.mk "u-alice" "alice".
Definition bob : Profile.t := Profile.mk "u-bob" "bob".
Definition team : Group.t := Group.mk 3 "team" "2023-11-01T09:00:00.000Z" "u-alice".

Definition chatBob : ChatListItem := dm bob "dm-u-bob".
Definition chatTeam : ChatListItem := group team "group-3".

(** An older message of the conversation with bob. *)
Definition hello : Message.t :=
  Message.mk (Message.Num 1) "hello" "2023-11-14T22:00:00.000Z"
             "u-bob" (Some "u-alice") None.

Definition reply : Message.t :=
  Message.mk (Message.Num 2) "hello bob" "2023-11-14T22:05:00.000Z"
             "u-alice" (Some "u-bob") None.

(** Two sends of the same text, one second apart. *)
Definition temp1 : Message.t :=
  Message.mk (Message.Str "temp-1700000000000-k3x9q2m1a") "hi"
             "2023-11-14T22:13:20.000Z" "u-alice" (Some "u-bob") None.

Definition temp2 : Message.t :=
  Message.mk (Message.Str "temp-1700000001000-z8w4r7t2b") "hi"
             "2023-11-14T22:13:21.000Z" "u-alice" (Some "u-bob") None.

(** The row that the database stores for the first send. *)
Definition confirmed1 : Message.t :=
  Message.mk (Message.Num 7) "hi" "2023-11-14T22:13:20.100Z"
             "u-alice" (Some "u-bob") None.

(** A message posted in the group. *)
Definition groupPost : Message.t :=
  Message.mk (Message.Num 8) "standup?" "2023-11-14T22:14:00.000Z"
             "u-bob" None (Some 3).

Definition hiPayload : DbPayload :=
  {| p_content := "hi"; p_sender_id := "u-alice";
     p_recipient_id := Some "u-bob"; p_group_id := None |}.

Definition pending1 : PendingSend :=
  {| tempMessage := temp1; dbPayload := hiPayload |}.

(** alice has the conversation with bob open. *)
Definition withBob (store : list Message.t) (typed : string) : ChatState :=
  {| messages := store; newMessage := typed;
     selectedChat := Some chatBob; currentUser := Some alice; effects := [] |}.

(** The state right after alice submitted "hi" on a store holding
    [hello]. *)
Definition afterSend : ChatState :=
  {| messages := [hello; temp1]; newMessage := "";
     selectedChat := Some chatBob; currentUser := Some alice;
     effects := [DbInsert hiPayload] |}.

Definition failed {A : Type} (message : string) : Response A :=
  {| data := None; error := Some message |}.

Definition succeeded {A : Type} (x : A) : Response A :=
  {| data := Some x; error := None |}.

(** alice sends "hi" twice, then the insert event of the first send
    arrives. *)
Definition doubleSend : list Event :=
  [ Typed "hi"; Submit "1700000000000-k3x9q2m1a" "2023-11-14T22:13:20.000Z";
    Typed "hi"; Submit "1700000001000-z8w4r7t2b" "2023-11-14T22:13:21.000Z";
    Push {| new := confirmed1 |} ].

(** alice switches from bob to the group and the history query fails. *)
Definition failedSwitch : list Event :=
  [ Click chatTeam; HistoryLoaded (failed "network error") ].

(** A direct message of bob to alice. *)
Definition fromBob : Message.t :=
  Message.mk (Message.Num 30) "are you there?" "2023-11-14T22:15:00.000Z"
             "u-bob" (Some "u-alice") None.

(** alice switches from bob to the group, the history of the group
    arrives, and then bob's message reaches the listener of the channel
    that was opened for the chat with bob and is being removed. *)
Definition staleDelivery : list Event :=
  [ Click chatTeam; HistoryLoaded (succeeded [groupPost]);
    StalePush alice chatBob {| new := fromBob |} ].

(** alice has sent "hi" once and typed it again. *)
Definition beforeSecondSend : list Event :=
  [ Typed "hi"; Submit "1700000000000-k3x9q2m1a" "2023-11-14T22:13:20.000Z";
    Typed "hi" ].

Definition pending2 : PendingSend :=
  {| tempMessage := temp2; dbPayload := hiPayload |}.

(** She sends it; the insert event of the first send arrives; the insert
    of the second send fails. *)
Definition failedSecondSend : list Event :=
  [ Submit "1700000001000-z8w4r7t2b" "2023-11-14T22:13:21.000Z";
    Push {| new := confirmed1 |};
    SendSettled pending2 (failed "network error") ].
End Example.

(* ================================================================== *)
(** ** The rest of the chat page *)

(** [`${n}`] for a number that is an integer. *)
Definition numberToString (n : Z) : string := NilZero.string_of_int (Z.to_int n).

(** [Array.prototype.join]. *)
Fixpoint join (sep : string) (l : list string) : string :=
  match l with
  | [] => ""
  | [x] => x
  | x :: r => x ++ sep ++ join sep r
  end.

(** The order of [Array.prototype.sort()] without a comparator, on strings:
    by code units. *)
Definition defaultCompare (x y : string) : Z :=
  match String.compare x y with
  | Lt => -1
  | Eq => 0
  | Gt => 1
  end.

(** *** Channel names (lines 206-210, 237-239) *)

Definition dmChannelName (currentUser dmPartner : Profile.t) : string :=
  "messages-dm-"
  ++ join "-" (sort defaultCompare [Profile.id currentUser; Profile.id dmPartner]).

Definition groupChannelName (g : Group.t) : string :=
  "messages-group-" ++ numberToString (Group.id g).

Definition channelName (currentUser : Profile.t) (selectedChat : ChatListItem) : string :=
  match selectedChat with
  | dm dmPartner _ => dmChannelName currentUser dmPartner
  | group g _ => groupChannelName g
  end.

(** *** The history query and the channel filter (lines 180-190, 244)

    The filters handed to the database, as terms: [column.eq.value],
    [column.is.null], [and(..)], [or(..)].  A row satisfies [eq] when the
    column holds that value (never when it is null).  The ids spliced into
    the filter string are taken as atoms. *)
Inductive Value : Type :=
| VText (s : string)
| VNumber (n : Z)
| VNull.

Inductive RowFilter : Type :=
| ColumnEq (column : string) (v : Value)
| ColumnIsNull (column : string)
| FilterAnd (a b : RowFilter)
| FilterOr (a b : RowFilter).

Definition columnValue (column : string) (row : Message.t) : Value :=
  if String.eqb column "id" then
    match Message.id row with Message.Num n => VNumber n | Message.Str s => VText s end
  else if String.eqb column "content" then VText (Message.content row)
  else if String.eqb column "created_at" then VText (Message.created_at row)
  else if String.eqb column "sender_id" then VText (Message.sender_id row)
  else if String.eqb column "recipient_id" then
    match Message.recipient_id row with Some r => VText r | None => VNull end
  else if String.eqb column "group_id" then
    match Message.group_id row with Some g => VNumber g | None => VNull end
  else VNull.

Fixpoint rowSatisfies (f : RowFilter) (row : Message.t) : bool :=
  match f with
  | ColumnEq column v =>
      match columnValue column row, v with
      | VText a, VText b => String.eqb a b
      | VNumber a, VNumber b => Z.eqb a b
      | _, _ => false
      end
  | ColumnIsNull column =>
      match columnValue column row with VNull => true | _ => false end
  | FilterAnd a b => rowSatisfies a row && rowSatisfies b row
  | FilterOr a b => rowSatisfies a row || rowSatisfies b row
  end.

(** The filter that [fetchMessages] builds (lines 181-189). *)
Definition fetchMessagesFilter (currentUser : Profile.t) (selectedChat : ChatListItem)
  : RowFilter :=
  match selectedChat with
  | dm dmPartner _ =>
      FilterOr
        (FilterAnd (ColumnEq "sender_id" (VText (Profile.id currentUser)))
           (FilterAnd (ColumnEq "recipient_id" (VText (Profile.id dmPartner)))
                      (ColumnIsNull "group_id")))
        (FilterAnd (ColumnEq "sender_id" (VText (Profile.id dmPartner)))
           (FilterAnd (ColumnEq "recipient_id" (VText (Profile.id currentUser)))
                      (ColumnIsNull "group_id")))
  | group g _ =>
      FilterAnd (ColumnEq "group_id" (VNumber (Group.id g)))
                (ColumnIsNull "recipient_id")
  end.

(** The server-side filter of the channel: none for a direct chat,
    [group_id=eq.${group.id}] for a group (line 244). *)
Definition channelFilter (selectedChat : ChatListItem) : option RowFilter :=
  match selectedChat with
  | dm _ _ => None
  | group g _ => Some (ColumnEq "group_id" (VNumber (Group.id g)))
  end.

Definition passesChannelFilter (selectedChat : ChatListItem) (row : Message.t) : bool :=
  match channelFilter selectedChat with
  | Some f => rowSatisfies f row
  | None => true
  end.

(** *** Page state outside the message logic (lines 34-43) *)

Record GroupMember : Type := { member_group_id : Z; member_user_id : string }.

(** Requests, navigation and messages of the page-level handlers.  An
    optional detail is [error?.message]. *)
Inductive PageEffect : Type :=
| AuthGetUser
| AuthSignOut
| RouterPush (path : string)
| SelectOwnProfile (id : string)
| SelectProfiles
| SelectGroups
| InsertGroup (name created_by : string)
| InsertGroupMembers (rows : list GroupMember)
| DeleteGroup (id : Z)
| PageConsoleError (label : string) (detail : option string)
| PageAlert (text : string).

Record PageState : Type := {
  chat : ChatState;
  allUsers : list Profile.t;
  chatList : list ChatListItem;
  showCreateGroupModal : bool;
  newGroupName : string;
  selectedUserIdsForGroup : list string;
  trace : list PageEffect
}.

Definition setChat (f : ChatState -> ChatState) (st : PageState) : PageState :=
  {| chat := f (chat st); allUsers := allUsers st; chatList := chatList st;
     showCreateGroupModal := showCreateGroupModal st; newGroupName := newGroupName st;
     selectedUserIdsForGroup := selectedUserIdsForGroup st; trace := trace st |}.

Definition setAllUsers (l : list Profile.t) (st : PageState) : PageState :=
  {| chat := chat st; allUsers := l; chatList := chatList st;
     showCreateGroupModal := showCreateGroupModal st; newGroupName := newGroupName st;
     selectedUserIdsForGroup := selectedUserIdsForGroup st; trace := trace st |}.

Definition setChatList (f : list ChatListItem -> list ChatListItem) (st : PageState)
  : PageState :=
  {| chat := chat st; allUsers := allUsers st; chatList := f (chatList st);
     showCreateGroupModal := showCreateGroupModal st; newGroupName := newGroupName st;
     selectedUserIdsForGroup := selectedUserIdsForGroup st; trace := trace st |}.

Definition setShowCreateGroupModal (b : bool) (st : PageState) : PageState :=
  {| chat := chat st; allUsers := allUsers st; chatList := chatList st;
     showCreateGroupModal := b; newGroupName := newGroupName st;
     selectedUserIdsForGroup := selectedUserIdsForGroup st; trace := trace st |}.

Definition setNewGroupName (s : string) (st : PageState) : PageState :=
  {| chat := chat st; allUsers := allUsers st; chatList := chatList st;
     showCreateGroupModal := showCreateGroupModal st; newGroupName := s;
     selectedUserIdsForGroup := selectedUserIdsForGroup st; trace := trace st |}.

Definition setSelectedUserIdsForGroup (f : list string -> list string) (st : PageState)
  : PageState :=
  {| chat := chat st; allUsers := allUsers st; chatList := chatList st;
     showCreateGroupModal := showCreateGroupModal st; newGroupName := newGroupName st;
     selectedUserIdsForGroup := f (selectedUserIdsForGroup st); trace := trace st |}.

Definition perform (e : PageEffect) (st : PageState) : PageState :=
  {| chat := chat st; allUsers := allUsers st; chatList := chatList st;
     showCreateGroupModal := showCreateGroupModal st; newGroupName := newGroupName st;
     selectedUserIdsForGroup := selectedUserIdsForGroup st;
     trace := (trace st ++ [e])%list |}.

Definition setCurrentUser (u : option Profile.t) (st : ChatState) : ChatState :=
  {| messages := messages st;
     newMessage := newMessage st;
     selectedChat := selectedChat st;
     currentUser := u;
     effects := effects st |}.

(** *** Loading the user, the profiles and the groups (lines 57-106)

    The handler is run to its end against the answers of the backend; an
    answer is read only if the handler gets to its request. *)
Record FetchDataAnswers : Type := {
  authAnswer : Response string;
  profileAnswer : Response Profile.t;
  usersAnswer : Response (list Profile.t);
  groupsAnswer : Response (list Group.t)
}.

(** Lines 95-97. *)
Definition dmChatItems (usersData : list Profile.t) (profileData : Profile.t)
  : list ChatListItem :=
  map (fun user => dm user ("dm-" ++ Profile.id user))
      (filter (fun user => negb (String.eqb (Profile.id user) (Profile.id profileData)))
              usersData).

(** Lines 99-100. *)
Definition groupChatItems (groupsData : list Group.t) : list ChatListItem :=
  map (fun g => group g ("group-" ++ numberToString (Group.id g))) groupsData.

Definition orEmpty {A : Type} (o : option (list A)) : list A :=
  match o with Some l => l | None => [] end.

(** Lines 78-103: the profiles, the groups and the chat list. *)
Definition fetchLists (a : FetchDataAnswers) (profileData : Profile.t) (st : PageState)
  : PageState :=
  let st := perform SelectProfiles st in
  let st :=
    match error (usersAnswer a) with
    | Some message =>
        perform (PageConsoleError "Error fetching all users:" (Some message)) st
    | None => setAllUsers (orEmpty (data (usersAnswer a))) st
    end in
  let st := perform SelectGroups st in
  match error (groupsAnswer a) with
  | Some message =>
      perform (PageConsoleError "Error fetching groups:" (Some message)) st
  | None =>
      setChatList
        (fun _ => (dmChatItems (orEmpty (data (usersAnswer a))) profileData
                   ++ groupChatItems (orEmpty (data (groupsAnswer a))))%list)
        st
  end.

Definition fetchData (a : FetchDataAnswers) (st : PageState) : PageState :=
  let st := perform AuthGetUser st in
  match error (authAnswer a), data (authAnswer a) with
  | None, Some userId =>
      let st := perform (SelectOwnProfile userId) st in
      match error (profileAnswer a), data (profileAnswer a) with
      | None, Some profileData =>
          (* the conversation effect depends on [currentUser] and runs again *)
          fetchLists a profileData
            (setChat (fun c => selectedChatEffect (setCurrentUser (Some profileData) c)) st)
      | profileError, _ =>
          perform (PageConsoleError "Error fetching current user profile:" profileError) st
      end
  | authError, _ =>
      perform (RouterPush "/auth/login")
              (perform (PageConsoleError "Error fetching auth user:" authError) st)
  end.

(** *** Creating a group (lines 319-369) *)

Record CreateGroupAnswers : Type := {
  authUserAnswer : option string;
  groupInsertAnswer : Response Group.t;
  membersInsertError : option string
}.

(** The [catch] block (lines 365-368). *)
Definition createGroupFailed (message : string) (st : PageState) : PageState :=
  perform (PageAlert ("Failed to create group: " ++ message))
          (perform (PageConsoleError "Error creating group:" (Some message)) st).

(** Lines 343-346. *)
Definition membersToInsert (groupData : Group.t) (currentUser : Profile.t)
           (selectedUserIds : list string) : list GroupMember :=
  {| member_group_id := Group.id groupData; member_user_id := Profile.id currentUser |}
  :: map (fun userId => {| member_group_id := Group.id groupData;
                           member_user_id := userId |}) selectedUserIds.

Definition handleCreateGroup (a : CreateGroupAnswers) (st : PageState) : PageState :=
  match String.eqb (trim (newGroupName st)) "", currentUser (chat st) with
  | false, Some user =>
      let st1 := perform AuthGetUser st in
      let matches :=
        match authUserAnswer a with
        | Some authId => String.eqb (Profile.id user) authId
        | None => false
        end in
      if negb matches then
        perform (PageAlert
                   "Authentication mismatch. Please try logging out and in again, or refresh.")
          (perform (PageConsoleError
                      "CRITICAL: currentUser.id in state does not match auth.uid()! This will likely fail RLS for group creation."
                      None) st1)
      else
        let st2 := perform (InsertGroup (newGroupName st) (Profile.id user)) st1 in
        match error (groupInsertAnswer a), data (groupInsertAnswer a) with
        | Some message, _ => createGroupFailed message st2
        | None, None => createGroupFailed "Group creation returned no data." st2
        | None, Some groupData =>
            let rows := membersToInsert groupData user (selectedUserIdsForGroup st) in
            let st3 := perform (InsertGroupMembers rows) st2 in
            match membersInsertError a with
            | Some message =>
                let st4 := perform (PageConsoleError
                                      "Error inserting group members, attempting to rollback group creation:"
                                      (Some message)) st3 in
                let st5 := perform (DeleteGroup (Group.id groupData)) st4 in
                createGroupFailed
                  ("Failed to add members: " ++ message ++ ". Group creation rolled back.") st5
            | None =>
                let newGroupChatItem :=
                  group groupData ("group-" ++ numberToString (Group.id groupData)) in
                let st4 := setChatList (fun prev => (prev ++ [newGroupChatItem])%list) st3 in
                (* the conversation effect runs for the newly selected chat *)
                let st5 := setChat
                             (fun c => selectedChatEffect
                                         (setMessages (fun _ => [])
                                            (setSelectedChat (Some newGroupChatItem) c)))
                             st4 in
                setSelectedUserIdsForGroup (fun _ => [])
                  (setNewGroupName "" (setShowCreateGroupModal false st5))
            end
        end
  | _, _ => st
  end.

(** Sign out (lines 371-375). *)
Definition chatHandleSignOut (signOutError : option string) (st : PageState) : PageState :=
  let st1 := perform AuthSignOut st in
  let st2 := match signOutError with
             | Some message => perform (PageConsoleError "Error signing out:" (Some message)) st1
             | None => st1
             end in
  perform (RouterPush "/auth/login") st2.

(** The member checkbox of the group dialog (lines 536-541): what it
    shows, and its [onChange]. *)
Definition memberChecked (userId : string) (st : PageState) : bool :=
  existsb (String.eqb userId) (selectedUserIdsForGroup st).

Definition onMemberCheckboxChange (checked : bool) (userId : string) (st : PageState)
  : PageState :=
  setSelectedUserIdsForGroup
    (fun prev => if checked then (prev ++ [userId])%list
                 else filter (fun id => negb (String.eqb id userId)) prev)
    st.

(** The sender line above a message (lines 466-470; nothing is rendered
    without a user, line 377, or without a chat, line 450): shown in a group
    for messages of others, with ['User'] when the name is unknown or
    empty. *)
Definition senderLabel (st : PageState) (message : Message.t) : option string :=
  match currentUser (chat st), selectedChat (chat st) with
  | Some user, Some (group _ _) =>
      if String.eqb (Message.sender_id message) (Profile.id user) then None
      else Some match find (fun u => String.eqb (Profile.id u) (Message.sender_id message))
                           (allUsers st) with
                | Some u => if String.eqb (Profile.username u) "" then "User"
                            else Profile.username u
                | None => "User"
                end
  | _, _ => None
  end.

(* ================================================================== *)
(** ** The login page *)

Module Login.

Inductive Effect : Type :=
| AuthSignUp (email password username : string)
| AuthSignIn (email password : string)
| AuthSignOut
| UpsertProfile (id username : string)
| RouterPush (path : string)
| ConsoleError (label detail : string).

(** The [error] of a backend answer. *)
Definition answerError {A : Type} (r : Response A) : option string := error r.

Record State : Type := {
  email : string;
  password : string;
  username : string;
  isSignup : bool;
  error : option string;
  trace : list Effect
}.

Definition setError (e : option string) (st : State) : State :=
  {| email := email st; password := password st; username := username st;
     isSignup := isSignup st; error := e; trace := trace st |}.

Definition setIsSignup (b : bool) (st : State) : State :=
  {| email := email st; password := password st; username := username st;
     isSignup := b; error := error st; trace := trace st |}.

Definition setEmail (s : string) (st : State) : State :=
  {| email := s; password := password st; username := username st;
     isSignup := isSignup st; error := error st; trace := trace st |}.

Definition setPassword (s : string) (st : State) : State :=
  {| email := email st; password := s; username := username st;
     isSignup := isSignup st; error := error st; trace := trace st |}.

Definition setUsername (s : string) (st : State) : State :=
  {| email := email st; password := password st; username := s;
     isSignup := isSignup st; error := error st; trace := trace st |}.

Definition perform (e : Effect) (st : State) : State :=
  {| email := email st; password := password st; username := username st;
     isSignup := isSignup st; error := error st; trace := (trace st ++ [e])%list |}.

(** The answers to [signUp] ([data.user] is the new user's id), to the
    profile [upsert] and to [signInWithPassword]. *)
Record Answers : Type := {
  signUpAnswer : Response string;
  upsertError : option string;
  signInError : option string
}.

(** [handleSubmit] (lines 17-74). *)
Definition handleSubmit (a : Answers) (st0 : State) : State :=
  let st := setError None st0 in
  if isSignup st then
    let st1 := perform (AuthSignUp (email st) (password st) (username st)) st in
    match answerError (signUpAnswer a), data (signUpAnswer a) with
    | Some message, _ => setError (Some message) st1
    | None, Some userId =>
        let st2 := perform (UpsertProfile userId (username st)) st1 in
        match upsertError a with
        | Some message =>
            setError
              (Some ("Signup successful, but profile creation failed: " ++ message
                     ++ ". Please try logging in or contact support."))
              (perform (ConsoleError "Profile Upsert Error:" message) st2)
        | None =>
            setUsername ""
              (setPassword ""
                 (setEmail ""
                    (setIsSignup false
                       (setError
                          (Some "Signup successful! Please check your email to confirm your account before logging in.")
                          st2))))
        end
    | None, None =>
        setError (Some "An unexpected issue occurred during signup. Please try again.") st1
    end
  else
    let st1 := perform (AuthSignIn (email st) (password st)) st in
    match signInError a with
    | Some message => setError (Some message) st1
    | None => perform (RouterPush "/chat") st1
    end.

(** [handleSignOut] (lines 76-79). *)
Definition handleSignOut (st : State) : State :=
  perform (RouterPush "/login") (perform AuthSignOut st).

(** The mode switch button (line 138). *)
Definition onSwitchMode (st : State) : State := setIsSignup (negb (isSignup st)) st.

End Login.

(* ================================================================== *)
(** ** Conditions on the answers of the backend *)

(** [getUser] answered with a user (the negation of line 60). *)
Definition authenticated (a : FetchDataAnswers) : Prop :=
  error (authAnswer a) = None /\ exists userId, data (authAnswer a) = Some userId.

(** The user's profile arrived as well (the negation of lines 60 and 72). *)
Definition profileLoaded (a : FetchDataAnswers) (p : Profile.t) : Prop :=
  authenticated a
  /\ error (profileAnswer a) = None /\ data (profileAnswer a) = Some p.

(** [handleCreateGroup] got as far as a stored group row [g] for the user
    [u]: a name that is not blank, a user whose id [getUser] confirms, and an
    insert answered with data and no error. *)
Definition groupCreated (a : CreateGroupAnswers) (st : PageState)
           (g : Group.t) (u : Profile.t) : Prop :=
  trim (newGroupName st) <> ""
  /\ currentUser (chat st) = Some u
  /\ authUserAnswer a = Some (Profile.id u)
  /\ error (groupInsertAnswer a) = None
  /\ data (groupInsertAnswer a) = Some g.

(** The sign-up ran through: sign-up mode, a new user and a stored profile. *)
Definition signedUp (a : Login.Answers) (st : Login.State) : Prop :=
  Login.isSignup st = true
  /\ error (Login.signUpAnswer a) = None
  /\ (exists userId, data (Login.signUpAnswer a) = Some userId)
  /\ Login.upsertError a = None.

(* ================================================================== *)
(** ** Worked examples: the page around the messages *)

Module PageExample.
Definition carol : Profile.t := Profile.mk "u-carol" "carol".
Definition nameless : Profile.t := Profile.mk "u-dave" "".
Definition design : Group.t :=
  Group.mk 4 "design" "2023-11-15T08:00:00.000Z" "u-alice".

Definition users : list Profile.t := [Example.alice; Example.bob; carol].
Definition groups : list Group.t := [Example.team].

Definition emptyChat : ChatState :=
  {| messages := []; newMessage := ""; selectedChat := None;
     currentUser := None; effects := [] |}.

(** The page right after mounting. *)
Definition mounted : PageState :=
  {| chat := emptyChat; allUsers := []; chatList := [];
     showCreateGroupModal := false; newGroupName := "";
     selectedUserIdsForGroup := []; trace := [] |}.

Definition allFine : FetchDataAnswers :=
  {| authAnswer := Example.succeeded "u-alice";
     profileAnswer := Example.succeeded Example.alice;
     usersAnswer := Example.succeeded users;
     groupsAnswer := Example.succeeded groups |}.

Definition groupsDown : FetchDataAnswers :=
  {| authAnswer := Example.succeeded "u-alice";
     profileAnswer := Example.succeeded Example.alice;
     usersAnswer := Example.succeeded users;
     groupsAnswer := Example.failed "permission denied" |}.

(** alice, with bob's chat open, has typed a group name and ticked bob. *)
Definition dialogOpen : PageState :=
  {| chat := Example.withBob [Example.hello] "";
     allUsers := users;
     chatList := [Example.chatBob; dm carol "dm-u-carol"; Example.chatTeam];
     showCreateGroupModal := true; newGroupName := "design";
     selectedUserIdsForGroup := ["u-bob"]; trace := [] |}.

Definition createFine : CreateGroupAnswers :=
  {| authUserAnswer := Some "u-alice";
     groupInsertAnswer := Example.succeeded design;
     membersInsertError := None |}.

Definition membersDown : CreateGroupAnswers :=
  {| authUserAnswer := Some "u-alice";
     groupInsertAnswer := Example.succeeded design;
     membersInsertError := Some "row-level security" |}.

(** alice looks at the group; bob and dave (who has no name) have posted. *)
Definition inTeam : PageState :=
  {| chat := {| messages := [Example.groupPost]; newMessage := "";
                selectedChat := Some Example.chatTeam;
                currentUser := Some Example.alice; effects := [] |};
     allUsers := [Example.alice; Example.bob; nameless];
     chatList := [Example.chatBob; Example.chatTeam];
     showCreateGroupModal := false; newGroupName := "";
     selectedUserIdsForGroup := []; trace := [] |}.

Definition signUpForm : Login.State :=
  {| Login.email := "carol@example.org"; Login.password := "s3cret!";
     Login.username := "carol"; Login.isSignup := true;
     Login.error := Some "Invalid login credentials"; Login.trace := [] |}.

Definition signUpFine : Login.Answers :=
  {| Login.signUpAnswer := Example.succeeded "u-carol";
     Login.upsertError := None;
     Login.signInError := None |}.
End PageExample.

(** Takes apart a hypothesis [H] of membership in a trace that was extended
    entry by entry. *)
Ltac trace_cases H :=
  simpl in H; repeat rewrite in_app_iff in H; simpl in H;
  repeat (destruct H as [H|H]); try contradiction; try discriminate H.

(** Closes a goal [sorted isoTime l] on a list of concrete messages. *)
Ltac in_order :=
  unfold sorted, sortedBy;
  repeat (first [apply SSorted_nil | apply SSorted_cons
                | apply Forall_nil | apply Forall_cons]);
  vm_compute; discriminate.

(* ================================================================== *)
(** ** Facts about [sort] *)

Section SortAnyComparator.
Context {A : Type} (compareFn : A -> A -> Z).

Lemma In_insert (x y : A) (l : list A) :
  In y (insert compareFn x l) <-> y = x \/ In y l.
Proof.
  induction l as [|z l IH]; simpl.
  - intuition.
  - destruct (0 <? compareFn x z); simpl; [rewrite IH|]; intuition.
Qed.

Lemma In_sort (y : A) (l : list A) : In y (sort compareFn l) <-> In y l.
Proof.
  induction l as [|x l IH]; simpl; [tauto|].
  rewrite In_insert, IH. intuition.
Qed.

Lemma insert_perm (x : A) (l : list A) : Permutation (x :: l) (insert compareFn x l).
Proof.
  induction l as [|z l IH]; simpl; [reflexivity|].
  destruct (0 <? compareFn x z); [|reflexivity].
  rewrite perm_swap. now apply perm_skip.
Qed.

Lemma sort_perm (l : list A) : Permutation l (sort compareFn l).
Proof.
  induction l as [|x l IH]; simpl; [constructor|].
  rewrite <- insert_perm. now apply perm_skip.
Qed.

Lemma length_sort (l : list A) : List.length (sort compareFn l) = List.length l.
Proof. symmetry. apply Permutation_length, sort_perm. Qed.



End SortAnyComparator.

Lemma precedes_In {A : Type} (a b : A) (l : list A) :
  precedes a b l -> In a l /\ In b l.
Proof.
  induction 1 as [l Hb|z l _ [IHa IHb]]; simpl; auto.
Qed.




Section SortByKey.
Context {A : Type} (compareFn : A -> A -> Z) (key : A -> Z).
Hypothesis compare_key : forall a b, compareFn a b = key a - key b.

Lemma insert_sorted (x : A) (l : list A) :
  sortedBy key l -> sortedBy key (insert compareFn x l).
Proof.
  unfold sortedBy. induction 1 as [|z l Hs IH Hall]; simpl.
  - repeat constructor.
  - destruct (0 <? compareFn x z) eqn:E; rewrite compare_key in E.
    + apply Z.ltb_lt in E. constructor; [exact IH|].
      apply Forall_forall. intros y Hy. apply In_insert in Hy.
      destruct Hy as [->|Hy]; [lia|].
      rewrite Forall_forall in Hall. now apply Hall.
    + apply Z.ltb_ge in E. constructor; [now constructor|].
      constructor; [lia|].
      eapply Forall_impl; [|exact Hall]. simpl. intros; lia.
Qed.

Lemma sort_sorted (l : list A) : sortedBy key (sort compareFn l).
Proof.
  induction l as [|x l IH]; simpl; [constructor|now apply insert_sorted].
Qed.

Lemma sort_of_sorted (l : list A) : sortedBy key l -> sort compareFn l = l.
Proof.
  unfold sortedBy. induction 1 as [|x l Hs IH Hall]; simpl; [reflexivity|].
  rewrite IH. destruct l as [|z l]; simpl; [reflexivity|].
  inversion Hall as [|? ? Hxz _]; subst.
  rewrite compare_key.
  destruct (0 <? key x - key z) eqn:E; [|reflexivity].
  apply Z.ltb_lt in E. lia.
Qed.

Lemma sort_idem (l : list A) : sort compareFn (sort compareFn l) = sort compareFn l.
Proof. apply sort_of_sorted, sort_sorted. Qed.


Lemma filter_insert (p : A -> bool) (x : A) (l : list A) :
  sortedBy key l ->
  filter p (insert compareFn x l)
  = if p x then insert compareFn x (filter p l) else filter p l.
Proof.
  unfold sortedBy. induction 1 as [|z l Hs IH Hall]; simpl.
  - now destruct (p x).
  - destruct (0 <? compareFn x z) eqn:E; simpl.
    + rewrite IH. destruct (p z), (p x); simpl; try rewrite E; reflexivity.
    + destruct (p x) eqn:Px; simpl; rewrite ?Px; [|reflexivity].
      destruct (p z) eqn:Pz; simpl; [now rewrite E|].
      (* every later element is at least [z], so [x] still goes first *)
      assert (Hfirst : forall l', Forall (fun y => key z <= key y) l' ->
                 insert compareFn x (filter p l') = x :: filter p l').
      { intros l' Hl'. destruct (filter p l') as [|y r] eqn:F; [reflexivity|].
        simpl. assert (Hy : In y (filter p l')) by (rewrite F; now left).
        apply filter_In in Hy. destruct Hy as [Hy _].
        rewrite Forall_forall in Hl'. specialize (Hl' _ Hy).
        rewrite compare_key in *. apply Z.ltb_ge in E.
        destruct (0 <? key x - key y) eqn:E'; [|reflexivity].
        apply Z.ltb_lt in E'. lia. }
      now rewrite Hfirst.
Qed.

Lemma filter_sort (p : A -> bool) (l : list A) :
  filter p (sort compareFn l) = sort compareFn (filter p l).
Proof.
  induction l as [|x l IH]; simpl; [reflexivity|].
  rewrite filter_insert by apply sort_sorted.
  rewrite IH. now destruct (p x).
Qed.
End SortByKey.

(* ================================================================== *)
(** ** Facts about ids *)

Lemma id_eqb_eq (a b : Message.Id) : Message.id_eqb a b = true <-> a = b.
Proof.
  destruct a as [n|s], b as [m|s']; simpl; split; intro H; try discriminate.
  - apply Z.eqb_eq in H. now subst.
  - inversion H. apply Z.eqb_refl.
  - apply String.eqb_eq in H. now subst.
  - inversion H. apply String.eqb_refl.
Qed.

Lemma id_eqb_refl (a : Message.Id) : Message.id_eqb a a = true.
Proof. now apply id_eqb_eq. Qed.

Lemma id_eqb_neq (a b : Message.Id) : Message.id_eqb a b = false <-> a <> b.
Proof.
  split.
  - intros H E. apply id_eqb_eq in E. congruence.
  - intros H. destruct (Message.id_eqb a b) eqn:E; [|reflexivity].
    apply id_eqb_eq in E. contradiction.
Qed.

(** A database id never prints with the [temp-] prefix. *)
Lemma isTemp_Num (m : Message.t) (n : Z) :
  Message.id m = Message.Num n -> Message.isTemp m = false.
Proof.
  unfold Message.isTemp, startsWith, Message.toString. intros ->.
  destruct (Z.to_int n) as [d|d]; [destruct d|]; reflexivity.
Qed.

Lemma isTemp_Str (m : Message.t) (s : string) :
  Message.id m = Message.Str ("temp-" ++ s) -> Message.isTemp m = true.
Proof.
  unfold Message.isTemp, startsWith, Message.toString. intros ->.
  simpl. repeat (destruct (ascii_dec _ _) as [_|N]; [|now elim N]).
  now destruct s.
Qed.

Lemma filter_all {A : Type} (p : A -> bool) (l : list A) :
  (forall e, In e l -> p e = true) -> filter p l = l.
Proof.
  induction l as [|x l IH]; intros H; simpl; [reflexivity|].
  rewrite (H x) by now left. f_equal. apply IH. intros e He. apply H. now right.
Qed.

Lemma Message_eq_dec (a b : Message.t) : {a = b} + {a <> b}.
Proof.
  repeat decide equality; try apply string_dec; apply Z.eq_dec.
Qed.

(* ================================================================== *)
(** ** Facts about the [map] callback and the scope test *)

Lemma hit_true (M msg : Message.t) : hit M msg = true -> put M msg = M.
Proof.
  unfold hit, put, replaceCallback.
  destruct (_ && _ && _); [reflexivity|].
  destruct (Message.id_eqb _ _); [reflexivity|discriminate].
Qed.

Lemma hit_false (M msg : Message.t) : hit M msg = false -> put M msg = msg.
Proof.
  unfold hit, put, replaceCallback.
  destruct (_ && _ && _); [discriminate|].
  destruct (Message.id_eqb _ _); [discriminate|reflexivity].
Qed.

Lemma hit_self (M : Message.t) : hit M M = true.
Proof.
  unfold hit, replaceCallback.
  destruct (_ && _ && _); [reflexivity|]. now rewrite id_eqb_refl.
Qed.

Lemma put_put (M msg : Message.t) : put M (put M msg) = put M msg.
Proof.
  destruct (hit M msg) eqn:E.
  - rewrite (hit_true _ _ E). apply hit_true, hit_self.
  - rewrite (hit_false _ _ E). now apply hit_false.
Qed.

Lemma hit_cases (M msg : Message.t) :
  hit M msg =
  (Message.isTemp msg
   && String.eqb (Message.sender_id msg) (Message.sender_id M)
   && String.eqb (Message.content msg) (Message.content M))
  || Message.id_eqb (Message.id msg) (Message.id M).
Proof.
  unfold hit, replaceCallback.
  destruct (_ && _ && _); [reflexivity|].
  now destruct (Message.id_eqb _ _).
Qed.

(** [messageExists] tests the entries with the same two conditions. *)
Lemma messageExists_hit (l : list Message.t) (M : Message.t) :
  messageExists l M = existsb (hit M) l.
Proof.
  unfold messageExists. induction l as [|e l IH]; simpl; [reflexivity|].
  rewrite IH, hit_cases. f_equal.
  destruct (Message.id_eqb _ _), (Message.isTemp e),
    (String.eqb (Message.content e) _), (String.eqb (Message.sender_id e) _);
    reflexivity.
Qed.

Lemma map_put_fixed (M : Message.t) (l : list Message.t) :
  (forall e, In e l -> put M e = e) -> map (put M) l = l.
Proof.
  intros H. rewrite <- (map_id l) at 2. now apply map_ext_in.
Qed.

Lemma no_hit_fixed (M : Message.t) (l : list Message.t) :
  existsb (hit M) l = false -> map (put M) l = l.
Proof.
  intros H. apply map_put_fixed. intros e He. apply hit_false.
  destruct (hit M e) eqn:E; [|reflexivity].
  assert (existsb (hit M) l = true) by (apply existsb_exists; eauto).
  congruence.
Qed.

Lemma isForActiveChat_spec (u : Profile.t) (c : ChatListItem) (E : Message.t) :
  isForActiveChat u c E = true <-> Scoping_spec u c E.
Proof.
  unfold isForActiveChat, Scoping_spec.
  destruct c as [partner k|g k].
  - rewrite andb_true_iff, orb_true_iff, !andb_true_iff, !String.eqb_eq.
    destruct (Message.recipient_id E) as [r|], (Message.group_id E) as [gid|];
      rewrite ?String.eqb_eq; split; intro H; intuition congruence.
  - rewrite andb_true_iff.
    destruct (Message.recipient_id E) as [r|], (Message.group_id E) as [gid|];
      rewrite ?Z.eqb_eq; split; intro H; intuition congruence.
Qed.

(* ================================================================== *)
(** ** Facts about the merge *)

Section MergeFacts.
Variable getTime : string -> Z.

Local Abbreviation sortMessages := (sort (byCreatedAt getTime)).

Lemma byCreatedAt_key (a b : Message.t) :
  byCreatedAt getTime a b = createdAt getTime a - createdAt getTime b.
Proof. reflexivity. Qed.

Lemma sortMessages_sorted (l : list Message.t) : sorted getTime (sortMessages l).
Proof. apply sort_sorted, byCreatedAt_key. Qed.

Lemma sortMessages_of_sorted (l : list Message.t) :
  sorted getTime l -> sortMessages l = l.
Proof. apply sort_of_sorted, byCreatedAt_key. Qed.

Lemma sortMessages_idem (l : list Message.t) :
  sortMessages (sortMessages l) = sortMessages l.
Proof. apply sort_idem with (key := createdAt getTime), byCreatedAt_key. Qed.

Lemma filter_sortMessages (p : Message.t -> bool) (l : list Message.t) :
  filter p (sortMessages l) = sortMessages (filter p l).
Proof. apply filter_sort with (key := createdAt getTime), byCreatedAt_key. Qed.

(** The own-message branch: the second test of line 163 never decides. *)
Lemma mergeIncoming_own (u : Profile.t) (M : Message.t) (l : list Message.t) :
  Message.sender_id M = Profile.id u ->
  mergeIncoming getTime u M l =
  if existsb (hit M) l then sortMessages (map (put M) l)
  else sortMessages (l ++ [M]).
Proof.
  intros Hs. unfold mergeIncoming. rewrite Hs, String.eqb_refl. simpl.
  fold (hit M) (put M).
  destruct (existsb (hit M) l) eqn:E; simpl; [reflexivity|].
  rewrite (no_hit_fixed _ _ E), messageExists_hit, E. reflexivity.
Qed.

Lemma mergeIncoming_other (u : Profile.t) (M : Message.t) (l : list Message.t) :
  Message.sender_id M <> Profile.id u ->
  mergeIncoming getTime u M l =
  if existsb (hit M) l then l else sortMessages (l ++ [M]).
Proof.
  intros Hs. unfold mergeIncoming.
  apply String.eqb_neq in Hs. rewrite Hs. simpl.
  now rewrite messageExists_hit.
Qed.

(** A store in which [M] already sits and nothing else matches it is left
    as it is, up to the re-sort. *)
Lemma merge_absorbed (u : Profile.t) (M : Message.t) (l : list Message.t) :
  In M l -> (forall e, In e l -> put M e = e) ->
  mergeIncoming getTime u M l = l \/ mergeIncoming getTime u M l = sortMessages l.
Proof.
  intros HM Hfix.
  assert (Hex : existsb (hit M) l = true).
  { apply existsb_exists. exists M. split; [exact HM|apply hit_self]. }
  destruct (String.eqb (Message.sender_id M) (Profile.id u)) eqn:E.
  - apply String.eqb_eq in E. right.
    now rewrite mergeIncoming_own, Hex, map_put_fixed.
  - apply String.eqb_neq in E. left.
    now rewrite mergeIncoming_other, Hex.
Qed.

(** With one entry that the incoming message of the user can stand for, that
    entry is replaced where it is and the list is re-sorted. *)
Lemma merge_replaces_single_match (u : Profile.t) (M t : Message.t)
      (l1 l2 : list Message.t) :
  Message.sender_id M = Profile.id u ->
  hit M t = true ->
  existsb (hit M) l1 = false -> existsb (hit M) l2 = false ->
  mergeIncoming getTime u M (l1 ++ t :: l2) = sortMessages (l1 ++ M :: l2).
Proof.
  intros Hs Ht H1 H2. rewrite mergeIncoming_own by exact Hs.
  rewrite existsb_app. simpl. rewrite Ht, orb_true_r.
  rewrite map_app. simpl.
  now rewrite (no_hit_fixed _ _ H1), (no_hit_fixed _ _ H2), (hit_true _ _ Ht).
Qed.

Lemma mergeIncoming_idem (u : Profile.t) (M : Message.t) (l : list Message.t) :
  mergeIncoming getTime u M (mergeIncoming getTime u M l) = mergeIncoming getTime u M l.
Proof.
  destruct (String.eqb (Message.sender_id M) (Profile.id u)) eqn:Hs.
  - apply String.eqb_eq in Hs. rewrite (mergeIncoming_own _ _ l Hs).
    assert (Hin : In M (if existsb (hit M) l then sortMessages (map (put M) l)
                        else sortMessages (l ++ [M]))).
    { destruct (existsb (hit M) l) eqn:E; apply In_sort.
      - apply existsb_exists in E. destruct E as [e [He Hh]].
        apply in_map_iff. exists e. split; [apply hit_true, Hh|exact He].
      - apply in_or_app. right. now left. }
    assert (Hfix : forall e, In e (if existsb (hit M) l then sortMessages (map (put M) l)
                                   else sortMessages (l ++ [M])) -> put M e = e).
    { destruct (existsb (hit M) l) eqn:E; intros e He; apply In_sort in He.
      - apply in_map_iff in He. destruct He as [e0 [<- _]]. apply put_put.
      - apply in_app_or in He. destruct He as [He|[<-|[]]].
        + rewrite <- (no_hit_fixed _ _ E) in He.
          apply in_map_iff in He. destruct He as [e0 [<- _]]. apply put_put.
        + apply hit_true, hit_self. }
    rewrite mergeIncoming_own by exact Hs.
    replace (existsb (hit M) _) with true
      by (symmetry; apply existsb_exists; exists M; split; [exact Hin|apply hit_self]).
    rewrite map_put_fixed by exact Hfix.
    destruct (existsb (hit M) l); apply sortMessages_idem.
  - apply String.eqb_neq in Hs. rewrite (mergeIncoming_other _ _ l Hs).
    destruct (existsb (hit M) l) eqn:E.
    + now rewrite mergeIncoming_other, E.
    + rewrite mergeIncoming_other by exact Hs.
      replace (existsb (hit M) _) with true; [reflexivity|].
      symmetry. apply existsb_exists. exists M. split; [|apply hit_self].
      apply In_sort, in_or_app. right. now left.
Qed.

Lemma callback_accepts (st : ChatState) (u : Profile.t) (c : ChatListItem)
      (payload : RealtimePostgresInsertPayload) :
  currentUser st = Some u -> selectedChat st = Some c ->
  isForActiveChat u c (new payload) = true ->
  messages (handleRealtimeMessageCallback getTime payload st)
  = mergeIncoming getTime u (new payload) (messages st).
Proof.
  intros Hu Hc Ha. unfold handleRealtimeMessageCallback.
  rewrite Hu, Hc, Ha. reflexivity.
Qed.

Lemma callback_keeps_context (payload : RealtimePostgresInsertPayload) (st : ChatState) :
  currentUser (handleRealtimeMessageCallback getTime payload st) = currentUser st
  /\ selectedChat (handleRealtimeMessageCallback getTime payload st) = selectedChat st.
Proof.
  unfold handleRealtimeMessageCallback.
  destruct (currentUser st) as [u|] eqn:Hu, (selectedChat st) as [c|] eqn:Hc; auto.
  destruct (negb _); simpl; auto.
Qed.

Lemma resume_keeps_context (pending : PendingSend) (resp : Response Message.t)
      (st : ChatState) :
  currentUser (handleSendMessage_resume getTime pending resp st) = currentUser st
  /\ selectedChat (handleSendMessage_resume getTime pending resp st) = selectedChat st.
Proof.
  unfold handleSendMessage_resume.
  destruct (error resp); [now split|]. destruct (data resp); now split.
Qed.

Lemma resume_success (pending : PendingSend) (d : Message.t) (st : ChatState) :
  messages (handleSendMessage_resume getTime pending {| data := Some d; error := None |} st)
  = match find (fun m => Message.id_eqb (Message.id m) (Message.id d)) (messages st) with
    | Some _ =>
        sortMessages (map (fun m => if Message.id_eqb (Message.id m) (Message.id d)
                                    then d else m) (messages st))
    | None =>
        sortMessages (map (fun msg => if Message.id_eqb (Message.id msg)
                                           (Message.id (tempMessage pending))
                                      then d else msg) (messages st))
    end.
Proof. reflexivity. Qed.











(** The callback of the render that shows the state. *)
Lemma callback_of_current_render (payload : RealtimePostgresInsertPayload)
      (st : ChatState) :
  handleRealtimeMessageCallback getTime payload st
  = callbackOfRender getTime (currentUser st) (selectedChat st) payload st.
Proof. reflexivity. Qed.

(** The listener's own test for a direct chat repeats the callback's. *)
Lemma channelListener_cases (u : Profile.t) (c : ChatListItem)
      (payload : RealtimePostgresInsertPayload) (st : ChatState) :
  channelListener getTime u c payload st = st
  \/ channelListener getTime u c payload st
     = callbackOfRender getTime (Some u) (Some c) payload st.
Proof.
  unfold channelListener. destruct c as [partner k|g k]; auto.
  destruct (_ && _ && _); auto.
Qed.



End MergeFacts.

(* ================================================================== *)
(** ** Properties of the message store *)

Section StoreProperties.
Variable getTime : string -> Z.

Local Abbreviation sortMessages := (sort (byCreatedAt getTime)).

(** C1 (idempotent merge).  Running the realtime callback a second time
    with the same payload changes nothing: the state after two runs is the
    state after one.  The same holds for the store update itself, for
    every user, message and store. *)
Theorem merge_idempotent :
  forall (payload : RealtimePostgresInsertPayload) (st : ChatState),
    messages (handleRealtimeMessageCallback getTime payload
                (handleRealtimeMessageCallback getTime payload st))
    = messages (handleRealtimeMessageCallback getTime payload st)
    /\ forall (u : Profile.t) (l : list Message.t),
        mergeIncoming getTime u (new payload) (mergeIncoming getTime u (new payload) l)
        = mergeIncoming getTime u (new payload) l.
Proof.
  intros payload st. split; [|intros; apply mergeIncoming_idem].
  unfold handleRealtimeMessageCallback.
  destruct (currentUser st) as [u|] eqn:Hu; [|now rewrite Hu].
  destruct (selectedChat st) as [c|] eqn:Hc; [|now rewrite Hu, Hc].
  destruct (isForActiveChat u c (new payload)) eqn:Hf; simpl.
  - rewrite Hu, Hc, Hf. simpl. apply mergeIncoming_idem.
  - now rewrite Hu, Hc, Hf.
Qed.

(** X24 (scoping of a listener).  A channel listener lets an event into the
    store only when the event is in the scope of the chat the listener was
    opened for, with the user it was opened for: such an event is handed to
    the merge by the callback, any other event leaves the whole state as it
    was, in the callback and in the listener; so the listener changes the
    store only for an event in the scope of its own chat.  The chat on
    screen is not consulted. *)
Theorem listener_scoping :
  forall (u : Profile.t) (c : ChatListItem)
         (payload : RealtimePostgresInsertPayload) (st : ChatState),
    (Scoping_spec u c (new payload) ->
     callbackOfRender getTime (Some u) (Some c) payload st
     = setMessages (mergeIncoming getTime u (new payload)) st)
    /\ (~ Scoping_spec u c (new payload) ->
        callbackOfRender getTime (Some u) (Some c) payload st = st
        /\ channelListener getTime u c payload st = st)
    /\ (messages (channelListener getTime u c payload st) <> messages st ->
        Scoping_spec u c (new payload))
    /\ (currentUser st = Some u -> selectedChat st = Some c ->
        openChatListener getTime payload st = channelListener getTime u c payload st
        /\ handleRealtimeMessageCallback getTime payload st
           = callbackOfRender getTime (Some u) (Some c) payload st).
Proof.
  intros u c payload st.
  assert (Hin : Scoping_spec u c (new payload) ->
                callbackOfRender getTime (Some u) (Some c) payload st
                = setMessages (mergeIncoming getTime u (new payload)) st).
  { intros Hs. apply isForActiveChat_spec in Hs.
    unfold callbackOfRender. now rewrite Hs. }
  assert (Hout : ~ Scoping_spec u c (new payload) ->
                 callbackOfRender getTime (Some u) (Some c) payload st = st).
  { intros Hs. unfold callbackOfRender.
    destruct (isForActiveChat u c (new payload)) eqn:E; [|reflexivity].
    apply isForActiveChat_spec in E. contradiction. }
  assert (Hlis : ~ Scoping_spec u c (new payload) ->
                 channelListener getTime u c payload st = st).
  { intros Hs. destruct (channelListener_cases getTime u c payload st) as [E|E];
      [exact E|]. rewrite E. now apply Hout. }
  split; [exact Hin|split; [|split]].
  - intros Hs. split; [apply Hout|apply Hlis]; exact Hs.
  - intros Hch.
    destruct (isForActiveChat u c (new payload)) eqn:E.
    + now apply isForActiveChat_spec.
    + exfalso. apply Hch. rewrite Hlis; [reflexivity|].
      intros Hs. apply isForActiveChat_spec in Hs. congruence.
  - intros Hu Hc. split.
    + unfold openChatListener. now rewrite Hu, Hc.
    + now rewrite callback_of_current_render, Hu, Hc.
Qed.

(** C9 (send guard).  When the typed text trims to the empty string, or no
    conversation is selected, or the current user is unknown,
    [handleSendMessage] returns the state it was given (store and effect
    log included, so no insert is issued) and nothing is left pending. *)
Theorem send_guard :
  forall (stamp now : string) (st : ChatState),
    trim (newMessage st) = "" \/ selectedChat st = None \/ currentUser st = None ->
    handleSendMessage getTime stamp now st = (st, None).
Proof.
  intros stamp now st [H|[H|H]]; unfold handleSendMessage; rewrite H.
  - reflexivity.
  - now destruct (String.eqb _ _).
  - now destruct (String.eqb _ _), (selectedChat st).
Qed.

(** C10 (success with nothing to replace).  If, when the send's success
    continuation runs, the store holds no entry with the temporary id and
    no entry with the confirmed id, the continuation only re-sorts: the
    store keeps the same entries, the confirmed record is not among them,
    and a store that was in order is returned as it was. *)
Theorem success_without_temp_adds_nothing :
  forall (pending : PendingSend) (d : Message.t) (st : ChatState),
    (forall e, In e (messages st) -> Message.id e <> Message.id (tempMessage pending)) ->
    (forall e, In e (messages st) -> Message.id e <> Message.id d) ->
    let st' := handleSendMessage_resume getTime pending
                 {| data := Some d; error := None |} st in
    messages st' = sortMessages (messages st)
    /\ Permutation (messages st) (messages st')
    /\ ~ In d (messages st')
    /\ List.length (messages st') = List.length (messages st)
    /\ (sorted getTime (messages st) -> messages st' = messages st).
Proof.
  intros pending d st Htemp Hid st'.
  assert (E : messages st' = sortMessages (messages st)).
  { subst st'. unfold handleSendMessage_resume. simpl.
    destruct (find _ (messages st)) as [e|] eqn:F.
    - apply find_some in F. destruct F as [He Hd].
      apply id_eqb_eq in Hd. now elim (Hid e He).
    - f_equal. rewrite <- (map_id (messages st)) at 2.
      apply map_ext_in. intros e He.
      destruct (Message.id_eqb _ _) eqn:Q; [|reflexivity].
      apply id_eqb_eq in Q. now elim (Htemp e He). }
  rewrite E. split; [reflexivity|]. split; [apply sort_perm|].
  split; [|split; [apply length_sort|apply sortMessages_of_sorted]].
  intros Hd. apply In_sort in Hd. now apply (Hid d Hd).
Qed.

(** X25 (failure right after the send).  When the insert of a send fails,
    the continuation filters the store by the temporary id of that send and
    by nothing else, so every entry with another id stays, whatever its
    content; it logs the error and shows it in an alert, and issues no
    request.  Run on the state that the send left, with no event in
    between and a temporary id new to the store, it gives back the entries
    of the store before the send: the same number of them, and the same
    list when that store was in order. *)
Theorem send_failure_rollback :
  forall (stamp now message : string) (resp : Response Message.t)
         (st0 st1 : ChatState) (pending : PendingSend),
    handleSendMessage getTime stamp now st0 = (st1, Some pending) ->
    error resp = Some message ->
    (forall e, In e (messages st0) -> Message.id e <> Message.Str ("temp-" ++ stamp)) ->
    let fail := handleSendMessage_resume getTime pending resp in
    Message.id (tempMessage pending) = Message.Str ("temp-" ++ stamp)
    /\ (forall st, messages (fail st)
                   = filter (fun msg => negb (Message.id_eqb (Message.id msg)
                                                (Message.id (tempMessage pending))))
                            (messages st))
    /\ (forall st e, In e (messages st) ->
                     Message.id e <> Message.id (tempMessage pending) ->
                     In e (messages (fail st)))
    /\ (forall st, effects (fail st)
                   = (effects st ++ [ConsoleError "Error sending message:" message;
                                     Alert ("Error: " ++ message)])%list)
    /\ messages (fail st1) = sortMessages (messages st0)
    /\ Permutation (messages st0) (messages (fail st1))
    /\ List.length (messages (fail st1)) = List.length (messages st0)
    /\ (sorted getTime (messages st0) -> messages (fail st1) = messages st0).
Proof.
  intros stamp now message resp st0 st1 pending Hsend Herr Hfresh fail.
  assert (Hfilter : forall st, messages (fail st)
                   = filter (fun msg => negb (Message.id_eqb (Message.id msg)
                                                (Message.id (tempMessage pending))))
                            (messages st)).
  { intros st. subst fail. unfold handleSendMessage_resume. now rewrite Herr. }
  unfold handleSendMessage in Hsend.
  destruct (String.eqb (trim (newMessage st0)) "") eqn:Ht; [discriminate|].
  destruct (selectedChat st0) as [c|]; [|discriminate].
  destruct (currentUser st0) as [u|]; [|discriminate].
  injection Hsend as Hst1 Hp.
  assert (Hid : Message.id (tempMessage pending) = Message.Str ("temp-" ++ stamp))
    by (now rewrite <- Hp).
  assert (Hback : messages (fail st1) = sortMessages (messages st0)).
  { rewrite Hfilter, Hid, <- Hst1. simpl messages.
    rewrite filter_sortMessages.
    rewrite filter_app. simpl. rewrite String.eqb_refl. simpl.
    rewrite app_nil_r, filter_all; [reflexivity|].
    intros e He. apply negb_true_iff, id_eqb_neq. now apply Hfresh. }
  split; [exact Hid|]. split; [exact Hfilter|]. split.
  { intros st e He Hne. rewrite Hfilter. apply filter_In. split; [exact He|].
    now apply negb_true_iff, id_eqb_neq. }
  split.
  { intros st. subst fail. unfold handleSendMessage_resume. rewrite Herr.
    simpl. now rewrite <- app_assoc. }
  rewrite Hback. split; [reflexivity|]. split; [apply sort_perm|].
  split; [apply length_sort|apply sortMessages_of_sorted].
Qed.

(** C5 (send success and push event commute).  Take a store holding the
    temporary entry [t] of a send by the current user, and the record [d]
    that the database confirms for it: same sender and content, a database
    id, in the scope of the open conversation.  If [t] is the only entry
    that the record can stand for (no other entry has the temporary id,
    has the confirmed id, or is a temporary entry with that sender and
    content), then the success continuation and the realtime callback
    each turn the store into the same list, [t] replaced by [d] and
    re-sorted, and running the other one afterwards leaves that list as
    it is. *)
Theorem success_and_push_commute :
  forall (st : ChatState) (u : Profile.t) (c : ChatListItem)
         (pending : PendingSend) (d : Message.t) (stamp : string) (n : Z),
    currentUser st = Some u ->
    selectedChat st = Some c ->
    In (tempMessage pending) (messages st) ->
    Message.id (tempMessage pending) = Message.Str ("temp-" ++ stamp) ->
    Message.id d = Message.Num n ->
    Message.sender_id d = Profile.id u ->
    Message.sender_id (tempMessage pending) = Message.sender_id d ->
    Message.content (tempMessage pending) = Message.content d ->
    Scoping_spec u c d ->
    (forall e, In e (messages st) -> e <> tempMessage pending ->
               Message.id e <> Message.id (tempMessage pending)
               /\ Message.id e <> Message.id d
               /\ ~ (Message.isTemp e = true
                     /\ Message.sender_id e = Message.sender_id d
                     /\ Message.content e = Message.content d)) ->
    let success := handleSendMessage_resume getTime pending
                     {| data := Some d; error := None |} in
    let push := handleRealtimeMessageCallback getTime {| new := d |} in
    let confirmed :=
      sortMessages (map (fun e => if Message.id_eqb (Message.id e)
                                       (Message.id (tempMessage pending))
                                  then d else e) (messages st)) in
    messages (success st) = confirmed
    /\ messages (push st) = confirmed
    /\ messages (push (success st)) = confirmed
    /\ messages (success (push st)) = confirmed.
Proof.
  intros st u c pending d stamp n Hu Hc Hin Htid Hdid Hdu Hts Htc Hscope Honly
         success push confirmed.
  set (t := tempMessage pending) in *.
  set (h := fun e => if Message.id_eqb (Message.id e) (Message.id t) then d else e)
    in *.
  assert (Htd : Message.id t <> Message.id d) by (rewrite Htid, Hdid; discriminate).
  assert (Hhit_t : hit d t = true).
  { rewrite hit_cases, (@isTemp_Str _ _ Htid), Hts, Htc, !String.eqb_refl.
    reflexivity. }
  assert (Hother : forall e, In e (messages st) -> e <> t ->
                             hit d e = false /\ h e = e
                             /\ Message.id_eqb (Message.id e) (Message.id d) = false).
  { intros e He Hne. destruct (Honly e He Hne) as [H1 [H2 H3]].
    apply id_eqb_neq in H1, H2. unfold h. rewrite H1.
    split; [|now split]. rewrite hit_cases, H2, orb_false_r.
    destruct (Message.isTemp e) eqn:T; [|reflexivity].
    destruct (String.eqb (Message.sender_id e) _) eqn:S; [|reflexivity].
    destruct (String.eqb (Message.content e) _) eqn:C; [|reflexivity].
    apply String.eqb_eq in S, C. elim H3. auto. }
  assert (Hht : h t = d) by (unfold h; now rewrite id_eqb_refl).
  assert (Hput : map (put d) (messages st) = map h (messages st)).
  { apply map_ext_in. intros e He. destruct (Message_eq_dec e t) as [->|Hne].
    - rewrite Hht. now apply hit_true.
    - destruct (Hother e He Hne) as [H1 [H2 _]]. rewrite H2. now apply hit_false. }
  assert (Hd_in : In d confirmed).
  { apply In_sort. rewrite <- Hht. now apply in_map. }
  assert (Hshape : forall e, In e confirmed ->
              e = d \/ (hit d e = false
                        /\ Message.id_eqb (Message.id e) (Message.id d) = false)).
  { intros e He. apply In_sort, in_map_iff in He. destruct He as [e0 [<- He0]].
    destruct (Message_eq_dec e0 t) as [->|Hne]; [left; exact Hht|right].
    destruct (Hother e0 He0 Hne) as [H1 [H2 H3]]. rewrite H2. now split. }
  assert (Hsorted : sortMessages confirmed = confirmed) by apply sortMessages_idem.
  assert (Hsuccess : messages (success st) = confirmed).
  { subst success. rewrite resume_success.
    destruct (find _ (messages st)) as [e|] eqn:F; [|reflexivity].
    apply find_some in F. destruct F as [He Hd].
    destruct (Message_eq_dec e t) as [->|Hne].
    - apply id_eqb_eq in Hd. contradiction.
    - destruct (Hother e He Hne) as [_ [_ H3]]. congruence. }
  assert (Hactive : isForActiveChat u c (new {| new := d |}) = true)
    by now apply isForActiveChat_spec.
  assert (Hpush : messages (push st) = confirmed).
  { subst push. rewrite (callback_accepts getTime st u c _ Hu Hc Hactive). simpl new.
    rewrite mergeIncoming_own by exact Hdu.
    replace (existsb (hit d) (messages st)) with true
      by (symmetry; apply existsb_exists; eauto).
    now rewrite Hput. }
  split; [exact Hsuccess|]. split; [exact Hpush|]. split.
  - destruct (resume_keeps_context getTime pending {| data := Some d; error := None |} st)
      as [Hu' Hc'].
    fold success in Hu', Hc'. rewrite Hu in Hu'. rewrite Hc in Hc'.
    subst push. rewrite (callback_accepts getTime (success st) u c _ Hu' Hc' Hactive).
    simpl new. rewrite Hsuccess.
    destruct (merge_absorbed getTime u d confirmed Hd_in) as [E|E];
      [|exact E|rewrite E; exact Hsorted].
    intros e He. destruct (Hshape e He) as [->|[H1 _]];
      [apply hit_true, hit_self|now apply hit_false].
  - subst success. rewrite resume_success, Hpush.
    assert (Hfix : map (fun m => if Message.id_eqb (Message.id m) (Message.id d)
                                 then d else m) confirmed = confirmed).
    { rewrite <- (map_id confirmed) at 2. apply map_ext_in. intros e He.
      destruct (Hshape e He) as [->|[_ H2]];
        [now rewrite id_eqb_refl|now rewrite H2]. }
    destruct (find _ confirmed) as [e|] eqn:F.
    + now rewrite Hfix.
    + exfalso. apply (find_none _ _ F) in Hd_in.
      rewrite id_eqb_refl in Hd_in. discriminate.
Qed.


End StoreProperties.

(* ================================================================== *)
(** ** Where the page departs from the specification *)

(** C2 (no duplicate persisted ids): the page reaches a store that holds
    the same database id twice.  alice sends "hi" twice; the insert event of
    the first send then replaces both temporary entries with the one
    confirmed row. *)
Theorem double_send_duplicates_persisted_id :
  messages (run isoTime Example.doubleSend (Example.withBob [] ""))
  = [Example.confirmed1; Example.confirmed1]
  /\ ~ noDuplicatePersistedIds
         (messages (run isoTime Example.doubleSend (Example.withBob [] ""))).
Proof.
  assert (E : messages (run isoTime Example.doubleSend (Example.withBob [] ""))
              = [Example.confirmed1; Example.confirmed1]) by (vm_compute; reflexivity).
  split; [exact E|]. rewrite E. unfold noDuplicatePersistedIds. simpl.
  intros H. inversion H as [|? ? Hnot _]; subst. apply Hnot. now left.
Qed.

(** C6 (confirmation replaces one temporary entry): with two temporary
    entries of the same sender and content in the store, the merge of the
    confirmed row replaces both, whatever the clock; the second one does not
    stay. *)
Theorem merge_replaces_every_matching_temp :
  forall getTime : string -> Z,
    mergeIncoming getTime Example.alice Example.confirmed1
                  [Example.temp1; Example.temp2]
    = [Example.confirmed1; Example.confirmed1]
    /\ ~ In Example.temp2
            (mergeIncoming getTime Example.alice Example.confirmed1
                           [Example.temp1; Example.temp2]).
Proof.
  intros getTime.
  assert (E : mergeIncoming getTime Example.alice Example.confirmed1
                            [Example.temp1; Example.temp2]
              = [Example.confirmed1; Example.confirmed1]).
  { rewrite mergeIncoming_own by reflexivity.
    change (existsb (hit Example.confirmed1) [Example.temp1; Example.temp2]) with true.
    change (map (put Example.confirmed1) [Example.temp1; Example.temp2])
      with [Example.confirmed1; Example.confirmed1].
    simpl. unfold byCreatedAt. now rewrite Z.sub_diag. }
  split; [exact E|]. rewrite E. simpl. intros [H|[H|[]]]; discriminate H.
Qed.

(** A failed history load leaves the store as it was: it only logs. *)
Lemma history_failure_keeps_store (resp : Response (list Message.t))
      (message : string) (st : ChatState) :
  error resp = Some message ->
  fetchMessages_resume resp st = emit (ConsoleError "Error fetching messages:" message) st.
Proof. intros H. unfold fetchMessages_resume. now rewrite H. Qed.

(** C8 (failed history load): alice has the conversation with bob on
    screen and clicks the group; the history query for the group fails.
    The group is now the selected chat, the error is logged and no second
    query is issued, but the store still holds bob's messages. *)
Theorem failed_switch_keeps_previous_messages :
  forall getTime : string -> Z,
    let st := run getTime Example.failedSwitch
                  (Example.withBob [Example.hello; Example.reply] "") in
    selectedChat st = Some Example.chatTeam
    /\ messages st = [Example.hello; Example.reply]
    /\ messages st <> []
    /\ effects st = [DbSelect Example.chatTeam Example.alice;
                     ConsoleError "Error fetching messages:" "network error"].
Proof.
  intros getTime. cbv zeta. repeat split; try reflexivity. discriminate.
Qed.

(** C3 (scoping): an event outside the scope of the chat on screen gets
    into the store.  alice switches from bob to the group and the history
    of the group arrives; bob's direct message then reaches the listener
    of the channel opened for the chat with bob, which tests it against
    that chat and merges it. *)
Theorem stale_listener_merges_into_open_chat :
  selectedChat (run isoTime Example.staleDelivery (Example.withBob [Example.hello] ""))
  = Some Example.chatTeam
  /\ currentUser (run isoTime Example.staleDelivery (Example.withBob [Example.hello] ""))
     = Some Example.alice
  /\ ~ Scoping_spec Example.alice Example.chatTeam Example.fromBob
  /\ messages (run isoTime Example.staleDelivery (Example.withBob [Example.hello] ""))
     = [Example.groupPost; Example.fromBob].
Proof.
  split; [reflexivity|]. split; [reflexivity|]. split.
  - simpl. intros [H _]. discriminate H.
  - vm_compute. reflexivity.
Qed.

(** C7 (send failure): a failed send whose temporary entry is not removed.
    With "hi" sent once and typed again the store holds one entry; alice
    sends it, the insert event of the first send replaces both temporary
    entries, and the failure of the second send finds nothing to remove:
    two entries stay, both the confirmed row of the first send. *)
Theorem failed_second_send_is_not_rolled_back :
  messages (run isoTime Example.beforeSecondSend (Example.withBob [] ""))
  = [Example.temp1]
  /\ snd (handleSendMessage isoTime "1700000001000-z8w4r7t2b" "2023-11-14T22:13:21.000Z"
            (run isoTime Example.beforeSecondSend (Example.withBob [] "")))
     = Some Example.pending2
  /\ messages (run isoTime Example.failedSecondSend
                 (run isoTime Example.beforeSecondSend (Example.withBob [] "")))
     = [Example.confirmed1; Example.confirmed1].
Proof.
  repeat split; vm_compute; reflexivity.
Qed.


(* ================================================================== *)
(** ** Worked examples *)

(** A message of blanks is not sent. *)
Lemma send_guard_witness :
  trim (newMessage (Example.withBob [Example.hello] "   ")) = ""
  /\ handleSendMessage isoTime "1700000000000-k3x9q2m1a" "2023-11-14T22:13:20.000Z"
                       (Example.withBob [Example.hello] "   ")
     = (Example.withBob [Example.hello] "   ", None).
Proof.
  split; [reflexivity|].
  apply (send_guard isoTime). left. reflexivity.
Defined.

(** The confirmation of a send arrives after the store was reloaded without
    the temporary entry. *)
Lemma success_without_temp_adds_nothing_witness :
  (forall e, In e (messages (Example.withBob [Example.hello; Example.reply] "")) ->
             Message.id e <> Message.id (tempMessage Example.pending1))
  /\ (forall e, In e (messages (Example.withBob [Example.hello; Example.reply] "")) ->
                Message.id e <> Message.id Example.confirmed1)
  /\ messages (handleSendMessage_resume isoTime Example.pending1
                 (Example.succeeded Example.confirmed1)
                 (Example.withBob [Example.hello; Example.reply] ""))
     = [Example.hello; Example.reply].
Proof.
  assert (H1 : forall e, In e (messages (Example.withBob [Example.hello; Example.reply] "")) ->
                         Message.id e <> Message.id (tempMessage Example.pending1)).
  { simpl. intros e [<-|[<-|[]]]; discriminate. }
  assert (H2 : forall e, In e (messages (Example.withBob [Example.hello; Example.reply] "")) ->
                         Message.id e <> Message.id Example.confirmed1).
  { simpl. intros e [<-|[<-|[]]]; discriminate. }
  split; [exact H1|]. split; [exact H2|].
  destruct (success_without_temp_adds_nothing isoTime Example.pending1 Example.confirmed1
              (Example.withBob [Example.hello; Example.reply] "") H1 H2)
    as [_ [_ [_ [_ Hsame]]]].
  apply Hsame. simpl. in_order.
Defined.

(** Scenario 5 of the specification: the send fails and the store is back
    to what it was. *)
Lemma send_failure_rollback_witness :
  handleSendMessage isoTime "1700000000000-k3x9q2m1a" "2023-11-14T22:13:20.000Z"
                    (Example.withBob [Example.hello] "hi")
  = (Example.afterSend, Some Example.pending1)
  /\ (forall e, In e (messages (Example.withBob [Example.hello] "hi")) ->
                Message.id e <> Message.Str ("temp-" ++ "1700000000000-k3x9q2m1a"))
  /\ messages (handleSendMessage_resume isoTime Example.pending1
                 (Example.failed "network error") Example.afterSend)
     = [Example.hello]
  /\ effects (handleSendMessage_resume isoTime Example.pending1
                (Example.failed "network error") Example.afterSend)
     = [DbInsert Example.hiPayload;
        ConsoleError "Error sending message:" "network error";
        Alert "Error: network error"].
Proof.
  assert (H1 : handleSendMessage isoTime "1700000000000-k3x9q2m1a"
                 "2023-11-14T22:13:20.000Z" (Example.withBob [Example.hello] "hi")
               = (Example.afterSend, Some Example.pending1))
    by (vm_compute; reflexivity).
  assert (H2 : forall e, In e (messages (Example.withBob [Example.hello] "hi")) ->
                 Message.id e <> Message.Str ("temp-" ++ "1700000000000-k3x9q2m1a")).
  { simpl. intros e [<-|[]]. discriminate. }
  split; [exact H1|]. split; [exact H2|].
  destruct (send_failure_rollback isoTime "1700000000000-k3x9q2m1a"
              "2023-11-14T22:13:20.000Z" "network error"
              (Example.failed "network error")
              (Example.withBob [Example.hello] "hi") Example.afterSend
              Example.pending1 H1 eq_refl H2)
    as [_ [_ [_ [Heff [_ [_ [_ Hsame]]]]]]].
  split.
  - apply Hsame. simpl. in_order.
  - exact (Heff Example.afterSend).
Defined.

(** Scenarios 1 and 2 of the specification: the success response and the
    insert event of the same send, in both orders. *)
Lemma success_and_push_commute_witness :
  In (tempMessage Example.pending1) (messages Example.afterSend)
  /\ Scoping_spec Example.alice Example.chatBob Example.confirmed1
  /\ messages (handleRealtimeMessageCallback isoTime {| new := Example.confirmed1 |}
                 (handleSendMessage_resume isoTime Example.pending1
                    (Example.succeeded Example.confirmed1) Example.afterSend))
     = [Example.hello; Example.confirmed1]
  /\ messages (handleSendMessage_resume isoTime Example.pending1
                 (Example.succeeded Example.confirmed1)
                 (handleRealtimeMessageCallback isoTime {| new := Example.confirmed1 |}
                    Example.afterSend))
     = [Example.hello; Example.confirmed1].
Proof.
  assert (Hin : In (tempMessage Example.pending1) (messages Example.afterSend))
    by (simpl; auto).
  assert (Hscope : Scoping_spec Example.alice Example.chatBob Example.confirmed1)
    by (simpl; auto).
  assert (Honly : forall e, In e (messages Example.afterSend) ->
            e <> tempMessage Example.pending1 ->
            Message.id e <> Message.id (tempMessage Example.pending1)
            /\ Message.id e <> Message.id Example.confirmed1
            /\ ~ (Message.isTemp e = true
                  /\ Message.sender_id e = Message.sender_id Example.confirmed1
                  /\ Message.content e = Message.content Example.confirmed1)).
  { simpl. intros e [<-|[<-|[]]] Hne.
    - repeat split; try discriminate. intros [H _]. discriminate H.
    - now elim Hne. }
  destruct (success_and_push_commute isoTime Example.afterSend Example.alice
              Example.chatBob Example.pending1 Example.confirmed1
              "1700000000000-k3x9q2m1a" 7
              eq_refl eq_refl Hin eq_refl eq_refl eq_refl eq_refl eq_refl
              Hscope Honly)
    as [_ [_ [H3 H4]]].
  split; [exact Hin|]. split; [exact Hscope|]. split.
  - etransitivity; [exact H3|vm_compute; reflexivity].
  - etransitivity; [exact H4|vm_compute; reflexivity].
Defined.


(* ================================================================== *)
(** ** Further properties of the merge and of sending *)

Lemma persistedIds_app (l1 l2 : list Message.t) :
  persistedIds (l1 ++ l2) = (persistedIds l1 ++ persistedIds l2)%list.
Proof.
  induction l1 as [|m l1 IH]; simpl; [reflexivity|].
  destruct (Message.id m); simpl; now rewrite IH.
Qed.

Lemma persistedIds_perm (l l' : list Message.t) :
  Permutation l l' -> Permutation (persistedIds l) (persistedIds l').
Proof.
  induction 1 as [|m l l' _ IH|m m' l|l l' l'' _ IH1 _ IH2]; simpl.
  - constructor.
  - destruct (Message.id m); [now constructor|exact IH].
  - destruct (Message.id m), (Message.id m'); try reflexivity. apply perm_swap.
  - now transitivity (persistedIds l').
Qed.

Lemma persistedIds_In (n : Z) (l : list Message.t) :
  In n (persistedIds l) <-> exists e, In e l /\ Message.id e = Message.Num n.
Proof.
  induction l as [|m l IH]; simpl.
  - split; [intros []|intros [e [[] _]]].
  - destruct (Message.id m) as [k|s] eqn:E; simpl; rewrite ?IH; split.
    + intros [->|[e [He Hn]]]; [exists m; auto|exists e; auto].
    + intros [e [[<-|He] Hn]]; [left; congruence|right; eauto].
    + intros [e [He Hn]]. exists e; auto.
    + intros [e [[<-|He] Hn]]; [congruence|eauto].
Qed.

(** An id that no entry of the list matches is not among its database ids. *)
Lemma no_hit_fresh_id (M : Message.t) (l : list Message.t) (n : Z) :
  existsb (hit M) l = false -> Message.id M = Message.Num n -> ~ In n (persistedIds l).
Proof.
  intros Hno Hid Hin. apply persistedIds_In in Hin. destruct Hin as [e [He Hn]].
  assert (Hh : hit M e = true).
  { rewrite hit_cases, Hn, Hid. simpl. rewrite Z.eqb_refl. apply orb_true_r. }
  assert (existsb (hit M) l = true) by (apply existsb_exists; eauto).
  congruence.
Qed.

Lemma NoDup_insert_id (M : Message.t) (a b : list Message.t) :
  existsb (hit M) a = false -> existsb (hit M) b = false ->
  NoDup (persistedIds a ++ persistedIds b) ->
  NoDup (persistedIds (a ++ M :: b)).
Proof.
  intros Ha Hb Hnd. rewrite persistedIds_app. simpl.
  destruct (Message.id M) as [n|s] eqn:E; [|exact Hnd].
  apply (proj2 (NoDup_Add (Add_app n (persistedIds a) (persistedIds b)))).
  split; [exact Hnd|]. intros Hin. apply in_app_or in Hin.
  destruct Hin as [Hin|Hin];
    [exact (no_hit_fresh_id M a n Ha E Hin)|exact (no_hit_fresh_id M b n Hb E Hin)].
Qed.

Lemma NoDup_drop_entry (t : Message.t) (a b : list Message.t) :
  NoDup (persistedIds (a ++ t :: b)) -> NoDup (persistedIds a ++ persistedIds b).
Proof.
  rewrite persistedIds_app. simpl.
  destruct (Message.id t); [apply NoDup_remove_1|auto].
Qed.

(** With at most one matching entry, the store splits around it. *)
Lemma single_hit_split (M : Message.t) (l : list Message.t) :
  (List.length (filter (hit M) l) <= 1)%nat ->
  existsb (hit M) l = true ->
  exists l1 t l2, l = (l1 ++ t :: l2)%list /\ hit M t = true
                  /\ existsb (hit M) l1 = false /\ existsb (hit M) l2 = false.
Proof.
  induction l as [|e l IH]; simpl; [discriminate|].
  destruct (hit M e) eqn:E; simpl; intros Hlen Hex.
  - exists [], e, l. repeat split; auto.
    destruct (existsb (hit M) l) eqn:X; [|reflexivity].
    apply existsb_exists in X. destruct X as [x [Hx Hhx]].
    assert (Hin : In x (filter (hit M) l)) by (apply filter_In; auto).
    destruct (filter (hit M) l); [destruct Hin|simpl in Hlen; lia].
  - destruct (IH Hlen Hex) as [l1 [t [l2 [-> [Ht [H1 H2]]]]]].
    exists (e :: l1), t, l2. simpl. rewrite E. repeat split; auto.
Qed.

Section MergeAndSend.
Variable getTime : string -> Z.

Local Abbreviation sortMessages := (sort (byCreatedAt getTime)).

Lemma merge_result_cases (u : Profile.t) (M : Message.t) (l : list Message.t) :
  mergeIncoming getTime u M l = l /\ existsb (hit M) l = true
  \/ mergeIncoming getTime u M l = sortMessages (map (put M) l)
     /\ existsb (hit M) l = true
  \/ mergeIncoming getTime u M l = sortMessages (l ++ [M])
     /\ existsb (hit M) l = false.
Proof.
  destruct (String.eqb (Message.sender_id M) (Profile.id u)) eqn:Hs.
  - apply String.eqb_eq in Hs. rewrite (mergeIncoming_own getTime u M l Hs).
    destruct (existsb (hit M) l); auto.
  - apply String.eqb_neq in Hs. rewrite (mergeIncoming_other getTime u M l Hs).
    destruct (existsb (hit M) l); auto.
Qed.

(** X1.  After the store update of the realtime callback, the incoming
    message is in the store in the sense of the page's own test
    [messageExists]: some entry carries its id, or is a temporary entry with
    its sender and content. *)
Theorem merge_represents_incoming :
  forall (u : Profile.t) (M : Message.t) (l : list Message.t),
    messageExists (mergeIncoming getTime u M l) M = true.
Proof.
  intros u M l. rewrite messageExists_hit.
  destruct (merge_result_cases u M l) as [[-> H]|[[-> H]|[-> H]]].
  - exact H.
  - apply existsb_exists in H. destruct H as [e [He Hh]].
    apply existsb_exists. exists M. split; [|apply hit_self].
    apply In_sort, in_map_iff. exists e. split; [now apply hit_true|exact He].
  - apply existsb_exists. exists M. split; [|apply hit_self].
    apply In_sort, in_or_app. right. now left.
Qed.

(** X2.  The store update of the realtime callback keeps every entry that
    the incoming message does not match (another id, and not a temporary
    entry with its sender and content), brings in nothing but the incoming
    message, and changes the number of entries by at most one, upwards. *)
Theorem merge_keeps_other_entries :
  forall (u : Profile.t) (M : Message.t) (l : list Message.t),
    (forall e, In e l ->
               Message.id e <> Message.id M ->
               (Message.isTemp e = false
                \/ Message.sender_id e <> Message.sender_id M
                \/ Message.content e <> Message.content M) ->
               In e (mergeIncoming getTime u M l))
    /\ (forall e, In e (mergeIncoming getTime u M l) -> e = M \/ In e l)
    /\ (List.length l <= List.length (mergeIncoming getTime u M l) <= List.length l + 1)%nat.
Proof.
  intros u M l. split; [|split].
  - intros e He Hid Hnot.
    assert (Hh : hit M e = false).
    { rewrite hit_cases. apply id_eqb_neq in Hid. rewrite Hid, orb_false_r.
      destruct Hnot as [H|[H|H]].
      - now rewrite H.
      - apply String.eqb_neq in H. rewrite H. apply andb_false_iff. left.
        apply andb_false_r.
      - apply String.eqb_neq in H. rewrite H. apply andb_false_r. }
    destruct (merge_result_cases u M l) as [[-> _]|[[-> _]|[-> _]]].
    + exact He.
    + apply In_sort, in_map_iff. exists e. split; [now apply hit_false|exact He].
    + apply In_sort, in_or_app. now left.
  - intros e He.
    destruct (merge_result_cases u M l) as [[E _]|[[E _]|[E _]]]; rewrite E in He.
    + now right.
    + apply In_sort, in_map_iff in He. destruct He as [e0 [<- He0]].
      destruct (hit M e0) eqn:Hh.
      * left. now apply hit_true.
      * right. now rewrite (hit_false _ _ Hh).
    + apply In_sort, in_app_or in He. destruct He as [He|[<-|[]]]; auto.
  - destruct (merge_result_cases u M l) as [[-> _]|[[-> _]|[-> _]]].
    + lia.
    + rewrite length_sort, length_map. lia.
    + rewrite length_sort, length_app. simpl. lia.
Qed.

(** X3.  When at most one entry of the store matches the incoming message,
    the store update of the realtime callback keeps the database ids of the
    store free of duplicates. *)
Theorem merge_preserves_unique_ids :
  forall (u : Profile.t) (M : Message.t) (l : list Message.t),
    noDuplicatePersistedIds l ->
    (List.length (filter (hit M) l) <= 1)%nat ->
    noDuplicatePersistedIds (mergeIncoming getTime u M l).
Proof.
  unfold noDuplicatePersistedIds. intros u M l Hnd Hone.
  destruct (merge_result_cases u M l) as [[-> _]|[[-> H]|[-> H]]].
  - exact Hnd.
  - destruct (single_hit_split M l Hone H) as [l1 [t [l2 [-> [Ht [H1 H2]]]]]].
    eapply Permutation_NoDup; [apply persistedIds_perm, sort_perm|].
    rewrite map_app. simpl.
    rewrite (no_hit_fixed _ _ H1), (no_hit_fixed _ _ H2), (hit_true _ _ Ht).
    apply NoDup_insert_id; auto. now apply NoDup_drop_entry with (t := t).
  - eapply Permutation_NoDup; [apply persistedIds_perm, sort_perm|].
    apply NoDup_insert_id; auto. simpl. now rewrite app_nil_r.
Qed.

(** X4.  Unless the partner of a direct chat has the empty id, a channel
    listener does exactly what the realtime callback of its render does:
    its own test of the event for a direct chat never rejects what the
    callback accepts.  This holds for the listener of the chat on screen
    and the callback of the state, and for any listener and the callback
    it was registered with. *)
Theorem listener_is_callback :
  forall (payload : RealtimePostgresInsertPayload) (st : ChatState),
    (forall partner k, selectedChat st = Some (dm partner k) -> Profile.id partner <> "") ->
    openChatListener getTime payload st = handleRealtimeMessageCallback getTime payload st
    /\ forall (u : Profile.t) (c : ChatListItem) (st' : ChatState),
        (forall partner k, c = dm partner k -> Profile.id partner <> "") ->
        channelListener getTime u c payload st'
        = callbackOfRender getTime (Some u) (Some c) payload st'.
Proof.
  intros payload st Hp.
  assert (Hany : forall (u : Profile.t) (c : ChatListItem) (st' : ChatState),
             (forall partner k, c = dm partner k -> Profile.id partner <> "") ->
             channelListener getTime u c payload st'
             = callbackOfRender getTime (Some u) (Some c) payload st').
  { intros u c st' Hc. unfold channelListener, callbackOfRender.
    destruct c as [partner k|g k]; [|reflexivity].
    specialize (Hc partner k eq_refl). apply String.eqb_neq in Hc. rewrite Hc. simpl.
    unfold isForActiveChat. destruct ((_ || _) && _); reflexivity. }
  split; [|exact Hany].
  rewrite callback_of_current_render. unfold openChatListener.
  destruct (selectedChat st) as [c|] eqn:Hc, (currentUser st) as [u|]; try reflexivity.
  apply Hany. intros partner k ->. now apply (Hp partner k).
Qed.

(** X5.  A submit that passes the guard creates one temporary message: it
    carries the [temp-] id, the typed text as it was typed, the user as
    sender, and the recipient or the group of the open chat (one of the
    two, never both), so it is in the scope of that chat.  The store gains
    exactly that entry, the input is cleared and one insert request with the
    same fields is issued. *)
Theorem submit_appends_temp :
  forall (stamp now : string) (st : ChatState) (c : ChatListItem) (u : Profile.t),
    trim (newMessage st) <> "" ->
    selectedChat st = Some c ->
    currentUser st = Some u ->
    exists (st1 : ChatState) (pending : PendingSend),
      handleSendMessage getTime stamp now st = (st1, Some pending)
      /\ Message.id (tempMessage pending) = Message.Str ("temp-" ++ stamp)
      /\ Message.isTemp (tempMessage pending) = true
      /\ Message.content (tempMessage pending) = newMessage st
      /\ Message.created_at (tempMessage pending) = now
      /\ Message.sender_id (tempMessage pending) = Profile.id u
      /\ isForActiveChat u c (tempMessage pending) = true
      /\ (Message.recipient_id (tempMessage pending) = None
          <-> Message.group_id (tempMessage pending) <> None)
      /\ dbPayload pending
         = {| p_content := Message.content (tempMessage pending);
              p_sender_id := Message.sender_id (tempMessage pending);
              p_recipient_id := Message.recipient_id (tempMessage pending);
              p_group_id := Message.group_id (tempMessage pending) |}
      /\ messages st1 = sortMessages (messages st ++ [tempMessage pending])
      /\ Permutation (tempMessage pending :: messages st) (messages st1)
      /\ newMessage st1 = ""
      /\ effects st1 = (effects st ++ [DbInsert (dbPayload pending)])%list.
Proof.
  intros stamp now st c u Ht Hc Hu.
  unfold handleSendMessage. apply String.eqb_neq in Ht. rewrite Ht, Hc, Hu.
  eexists. eexists. split; [reflexivity|]. simpl.
  split; [reflexivity|]. split; [apply (isTemp_Str _ stamp); reflexivity|].
  assert (Hperm : forall t, Permutation (t :: messages st)
                                        (sortMessages (messages st ++ [t]))).
  { intros t. rewrite <- sort_perm. apply Permutation_cons_append. }
  destruct c as [partner k|g k]; simpl; rewrite ?String.eqb_refl, ?Z.eqb_refl; simpl;
    repeat split; auto; try discriminate; try (intros H; now elim H).
Qed.

(** X6.  The continuation of a send never makes the store longer, whatever
    the answer: a success keeps the number of entries (it replaces in
    place), a failure can only remove. *)
Theorem settle_never_grows :
  forall (pending : PendingSend) (resp : Response Message.t) (st : ChatState),
    (List.length (messages (handleSendMessage_resume getTime pending resp st))
     <= List.length (messages st))%nat
    /\ (error resp = None ->
        List.length (messages (handleSendMessage_resume getTime pending resp st))
        = List.length (messages st)).
Proof.
  intros pending resp st. unfold handleSendMessage_resume.
  destruct (error resp) as [message|]; simpl.
  - split; [apply filter_length_le|discriminate].
  - destruct (data resp) as [d|]; simpl; [|split; auto].
    destruct (find _ (messages st)); rewrite length_sort, length_map; split; auto.
Qed.

(** X7.  If no entry carries the confirmed id yet, the success continuation
    leaves no entry with the temporary id of the send, and when there was
    one the confirmed record is in the store afterwards. *)
Theorem success_retires_temp :
  forall (pending : PendingSend) (d : Message.t) (st : ChatState),
    (forall e, In e (messages st) -> Message.id e <> Message.id d) ->
    Message.id d <> Message.id (tempMessage pending) ->
    let st' := handleSendMessage_resume getTime pending
                 {| data := Some d; error := None |} st in
    (forall e, In e (messages st') -> Message.id e <> Message.id (tempMessage pending))
    /\ ((exists e, In e (messages st)
                   /\ Message.id e = Message.id (tempMessage pending)) ->
        In d (messages st')).
Proof.
  intros pending d st Hfresh Hne st'. subst st'. rewrite resume_success.
  destruct (find _ (messages st)) as [x|] eqn:F.
  { apply find_some in F. destruct F as [Hx Hd]. apply id_eqb_eq in Hd.
    now elim (Hfresh x Hx). }
  split.
  - intros e He. apply In_sort, in_map_iff in He. destruct He as [e0 [<- He0]].
    destruct (Message.id_eqb (Message.id e0) _) eqn:Q; [exact Hne|].
    now apply id_eqb_neq.
  - intros [e [He Hid]]. apply In_sort, in_map_iff. exists e. split; [|exact He].
    now rewrite Hid, id_eqb_refl.
Qed.

(** X8.  If some entry already carries the confirmed id, the success
    continuation only refreshes the entries with that id: every other entry
    stays, the temporary entry of the send included. *)
Theorem success_with_existing_keeps_others :
  forall (pending : PendingSend) (d : Message.t) (st : ChatState) (x : Message.t),
    In x (messages st) ->
    Message.id x = Message.id d ->
    let st' := handleSendMessage_resume getTime pending
                 {| data := Some d; error := None |} st in
    In d (messages st')
    /\ (forall e, In e (messages st) -> Message.id e <> Message.id d ->
                  In e (messages st'))
    /\ (forall e, In e (messages st') -> e = d \/ In e (messages st)).
Proof.
  intros pending d st x Hx Hid st'. subst st'. rewrite resume_success.
  destruct (find _ (messages st)) as [y|] eqn:F.
  2:{ apply (find_none _ _ F) in Hx. rewrite Hid, id_eqb_refl in Hx. discriminate. }
  split; [|split].
  - apply In_sort, in_map_iff. exists x. split; [|exact Hx].
    now rewrite Hid, id_eqb_refl.
  - intros e He Hne. apply In_sort, in_map_iff. exists e. split; [|exact He].
    apply id_eqb_neq in Hne. now rewrite Hne.
  - intros e He. apply In_sort, in_map_iff in He. destruct He as [e0 [<- He0]].
    destruct (Message.id_eqb _ _); auto.
Qed.

(** X23.  A send followed by its success answer, with a temporary id and a
    confirmed id that are new to the store, leaves the entries of the store
    before the send together with the confirmed record, in ascending
    order: the temporary entry is gone and nothing else changed. *)
Theorem send_then_success_adds_confirmed :
  forall (stamp now : string) (d : Message.t) (n : Z)
         (st0 st1 : ChatState) (pending : PendingSend),
    handleSendMessage getTime stamp now st0 = (st1, Some pending) ->
    Message.id d = Message.Num n ->
    (forall e, In e (messages st0) -> Message.id e <> Message.Str ("temp-" ++ stamp)) ->
    (forall e, In e (messages st0) -> Message.id e <> Message.id d) ->
    let st2 := handleSendMessage_resume getTime pending
                 {| data := Some d; error := None |} st1 in
    Permutation (d :: messages st0) (messages st2)
    /\ sorted getTime (messages st2)
    /\ (forall e, In e (messages st2) -> Message.id e <> Message.id (tempMessage pending)).
Proof.
  intros stamp now d n st0 st1 pending Hsend Hd Hfresh Hnew st2.
  unfold handleSendMessage in Hsend.
  destruct (String.eqb (trim (newMessage st0)) "") eqn:Ht; [discriminate|].
  destruct (selectedChat st0) as [c|]; [|discriminate].
  destruct (currentUser st0) as [u|]; [|discriminate].
  injection Hsend as Hst1 Hp.
  assert (Hid : Message.id (tempMessage pending) = Message.Str ("temp-" ++ stamp))
    by (now rewrite <- Hp).
  set (t := tempMessage pending) in *.
  assert (Hm1 : messages st1 = sortMessages (messages st0 ++ [t])).
  { rewrite <- Hst1. simpl. subst t. now rewrite <- Hp. }
  assert (Htd : Message.id t <> Message.id d) by (rewrite Hid, Hd; discriminate).
  assert (Hnone : find (fun m => Message.id_eqb (Message.id m) (Message.id d))
                       (messages st1) = None).
  { destruct (find _ (messages st1)) as [x|] eqn:F; [|reflexivity].
    apply find_some in F. destruct F as [Hx Hxd]. apply id_eqb_eq in Hxd.
    rewrite Hm1 in Hx. apply In_sort, in_app_or in Hx.
    destruct Hx as [Hx|[<-|[]]]; [now elim (Hnew x Hx)|contradiction]. }
  assert (E : messages st2
              = sortMessages (map (fun msg => if Message.id_eqb (Message.id msg)
                                                   (Message.id t)
                                              then d else msg) (messages st1))).
  { subst st2. rewrite resume_success. fold t. now rewrite Hnone. }
  split; [|split].
  - rewrite E, <- sort_perm, Hm1.
    rewrite <- (Permutation_map _ (sort_perm (byCreatedAt getTime) (messages st0 ++ [t]))).
    rewrite map_app. simpl. rewrite id_eqb_refl.
    rewrite <- Permutation_cons_append. apply perm_skip.
    rewrite <- (map_id (messages st0)) at 1. apply Permutation_refl'.
    apply map_ext_in. intros e He.
    destruct (Message.id_eqb (Message.id e) (Message.id t)) eqn:Q; [|reflexivity].
    apply id_eqb_eq in Q. rewrite Hid in Q. now elim (Hfresh e He).
  - rewrite E. apply sortMessages_sorted.
  - intros e He. rewrite E in He. apply In_sort, in_map_iff in He.
    destruct He as [e0 [<- _]].
    destruct (Message.id_eqb (Message.id e0) (Message.id t)) eqn:Q.
    + intros H. apply Htd. now symmetry.
    + now apply id_eqb_neq.
Qed.

End MergeAndSend.

(* ================================================================== *)
(** ** The history query, the channel filter and the channel names *)

Lemma append_cancel_l (p s s' : string) : p ++ s = p ++ s' -> s = s'.
Proof.
  induction p as [|c p IH]; simpl; intros H; [exact H|].
  injection H as H. now apply IH.
Qed.

Lemma numberToString_inj (n m : Z) : numberToString n = numberToString m -> n = m.
Proof.
  unfold numberToString. intros H. apply DecimalZ.to_int_inj.
  assert (Hnz : forall k, Z.to_int k <> Decimal.Pos Decimal.Nil
                          /\ Z.to_int k <> Decimal.Neg Decimal.Nil).
  { intros [|q|q]; simpl; split; try discriminate; intros E; injection E;
      apply DecimalPos.Unsigned.to_uint_nonnil. }
  apply (f_equal NilZero.int_of_string) in H.
  rewrite !NilZero.isi in H by apply Hnz.
  now injection H.
Qed.

(** X9.  The filter of the history query and the test of the realtime
    callback select the same rows: a stored message is part of the loaded
    history of a chat exactly when its insert event would be accepted for
    that chat. *)
Theorem history_filter_is_scope :
  forall (u : Profile.t) (c : ChatListItem) (row : Message.t),
    rowSatisfies (fetchMessagesFilter u c) row = isForActiveChat u c row.
Proof.
  intros u c row. destruct c as [partner k|g k]; simpl; unfold columnValue; simpl.
  - destruct (Message.recipient_id row) as [r|], (Message.group_id row) as [gid|];
      destruct (String.eqb (Message.sender_id row) (Profile.id u)),
               (String.eqb (Message.sender_id row) (Profile.id partner));
      simpl; try reflexivity;
      destruct (String.eqb r (Profile.id partner)), (String.eqb r (Profile.id u));
      reflexivity.
  - destruct (Message.recipient_id row) as [r|], (Message.group_id row) as [gid|];
      simpl; try reflexivity; now rewrite andb_false_r.
Qed.

(** X10.  The server-side filter of the channel never holds back an event
    that the realtime callback would accept. *)
Theorem accepted_event_passes_channel_filter :
  forall (u : Profile.t) (c : ChatListItem) (row : Message.t),
    isForActiveChat u c row = true ->
    passesChannelFilter c row = true.
Proof.
  intros u c row H. destruct c as [partner k|g k]; [reflexivity|].
  unfold passesChannelFilter. simpl in *. unfold columnValue. simpl.
  destruct (Message.group_id row) as [gid|]; [|discriminate].
  now apply andb_true_iff in H.
Qed.

(** X11.  The channel of a direct chat has the same name whichever of the
    two users opens it; it is never the name of a group channel; and
    different groups have different channel names. *)
Theorem channel_names :
  forall (a b : Profile.t) (g g' : Group.t),
    dmChannelName a b = dmChannelName b a
    /\ dmChannelName a b <> groupChannelName g
    /\ (groupChannelName g = groupChannelName g' -> Group.id g = Group.id g').
Proof.
  intros a b g g'. split; [|split].
  - unfold dmChannelName, defaultCompare. simpl. f_equal.
    rewrite (String.compare_antisym (Profile.id b) (Profile.id a)).
    destruct (String.compare (Profile.id a) (Profile.id b)) eqn:E; simpl;
      try reflexivity.
    apply String.compare_eq_iff in E. now rewrite E.
  - unfold dmChannelName, groupChannelName. intros H.
    apply (f_equal (String.get 9)) in H. simpl in H. discriminate H.
  - unfold groupChannelName. intros H. apply numberToString_inj.
    now apply append_cancel_l in H.
Qed.

(* ================================================================== *)
(** ** Loading the page: user, profiles, groups and the chat list *)

Lemma authenticated_cases (a : FetchDataAnswers) :
  (exists userId, error (authAnswer a) = None /\ data (authAnswer a) = Some userId)
  \/ (~ authenticated a
      /\ (error (authAnswer a) <> None \/ data (authAnswer a) = None)).
Proof.
  unfold authenticated.
  destruct (error (authAnswer a)) as [m|] eqn:E.
  - right. split; [intros [H _]; discriminate H|left; discriminate].
  - destruct (data (authAnswer a)) as [userId|] eqn:D.
    + left. eauto.
    + right. split; [intros [_ [x H]]; discriminate H|now right].
Qed.

(** The three ways [fetchData] ends. *)
Lemma fetchData_cases (a : FetchDataAnswers) (st : PageState) :
  (~ authenticated a
   /\ fetchData a st
      = perform (RouterPush "/auth/login")
          (perform (PageConsoleError "Error fetching auth user:" (error (authAnswer a)))
             (perform AuthGetUser st)))
  \/ (authenticated a /\ (forall p, ~ profileLoaded a p)
      /\ exists userId,
          fetchData a st
          = perform (PageConsoleError "Error fetching current user profile:"
                       (error (profileAnswer a)))
              (perform (SelectOwnProfile userId) (perform AuthGetUser st)))
  \/ (exists p userId,
        profileLoaded a p
        /\ fetchData a st
           = fetchLists a p
               (setChat (fun c => selectedChatEffect (setCurrentUser (Some p) c))
                  (perform (SelectOwnProfile userId) (perform AuthGetUser st)))).
Proof.
  destruct (authenticated_cases a) as [[userId [E D]]|[Hno Hwhy]].
  - assert (Hauth : authenticated a) by (split; eauto).
    unfold fetchData. rewrite E, D.
    destruct (error (profileAnswer a)) as [m|] eqn:PE.
    + right. left. split; [exact Hauth|]. split; [|eauto].
      intros p [_ [H _]]. congruence.
    + destruct (data (profileAnswer a)) as [p|] eqn:PD.
      * right. right. exists p, userId. split; [|reflexivity].
        split; [exact Hauth|split; [exact PE|exact PD]].
      * right. left. split; [exact Hauth|]. split; [|eauto].
        intros p [_ [_ H]]. congruence.
  - left. split; [exact Hno|]. unfold fetchData.
    destruct (error (authAnswer a)) as [m|]; [reflexivity|].
    destruct (data (authAnswer a)); [|reflexivity].
    destruct Hwhy as [H|H]; [now elim H|discriminate H].
Qed.

Lemma fetchLists_frame (a : FetchDataAnswers) (p : Profile.t) (st : PageState) :
  chat (fetchLists a p st) = chat st
  /\ forall path, In (RouterPush path) (trace (fetchLists a p st))
                  <-> In (RouterPush path) (trace st).
Proof.
  unfold fetchLists.
  destruct (error (usersAnswer a)), (error (groupsAnswer a)); simpl;
    (split; [reflexivity|]); intros path; repeat rewrite in_app_iff; simpl;
    intuition discriminate.
Qed.

(** X12.  [fetchData] sends the browser to the login page exactly when
    [getUser] fails or names no user, and then it touches nothing else.
    The current user is set exactly when the profile of the authenticated
    user arrives; without it the chat state, the user list and the chat list
    stay as they were. *)
Theorem fetchData_user_and_redirect :
  forall (a : FetchDataAnswers) (st : PageState),
    (forall path, In (RouterPush path) (trace (fetchData a st))
                  <-> In (RouterPush path) (trace st)
                      \/ (~ authenticated a /\ path = "/auth/login"))
    /\ (forall p, profileLoaded a p -> currentUser (chat (fetchData a st)) = Some p)
    /\ ((forall p, ~ profileLoaded a p) ->
        chat (fetchData a st) = chat st
        /\ allUsers (fetchData a st) = allUsers st
        /\ chatList (fetchData a st) = chatList st).
Proof.
  intros a st.
  destruct (fetchData_cases a st) as [[Hno E]|[[Hauth [Hnp [userId E]]]|[p [userId [Hp E]]]]];
    rewrite E.
  - split; [|split].
    + intros path. split.
      * intros H. trace_cases H; [now left|]. injection H as <-. auto.
      * intros [H|[_ ->]]; simpl; repeat rewrite in_app_iff; simpl; auto.
    + intros p [H _]. contradiction.
    + intros _. now repeat split.
  - split; [|split].
    + intros path. split.
      * intros H. trace_cases H. now left.
      * intros [H|[H _]]; [|contradiction].
        simpl; repeat rewrite in_app_iff; auto.
    + intros p H. now elim (Hnp p).
    + intros _. now repeat split.
  - destruct (fetchLists_frame a p
                (setChat (fun c => selectedChatEffect (setCurrentUser (Some p) c))
                   (perform (SelectOwnProfile userId) (perform AuthGetUser st))))
      as [Hchat Htrace].
    split; [|split].
    + intros path. rewrite Htrace. split.
      * intros H. trace_cases H. now left.
      * intros [H|[H _]]; [|destruct Hp as [Ha _]; contradiction].
        simpl; repeat rewrite in_app_iff; auto.
    + intros q Hq. rewrite Hchat. simpl.
      destruct Hp as [_ [_ Hp]], Hq as [_ [_ Hq]].
      assert (q = p) by congruence. subst q.
      unfold selectedChatEffect. simpl. now destruct (selectedChat (chat st)).
    + intros Hnone. now elim (Hnone p).
Qed.

(** X13.  Once the profile is there, the chat list stands or falls with
    the groups query: if it fails the list stays as it was, direct chats
    included, even though the profiles arrived; if it succeeds while the
    profiles query failed, the list holds the groups only and the user list
    stays as it was. *)
Theorem chat_list_depends_on_groups_query :
  forall (a : FetchDataAnswers) (st : PageState) (p : Profile.t),
    profileLoaded a p ->
    (error (groupsAnswer a) <> None -> chatList (fetchData a st) = chatList st)
    /\ (error (groupsAnswer a) = None ->
        chatList (fetchData a st)
        = (dmChatItems (orEmpty (data (usersAnswer a))) p
           ++ groupChatItems (orEmpty (data (groupsAnswer a))))%list)
    /\ (error (usersAnswer a) <> None ->
        error (groupsAnswer a) = None ->
        data (usersAnswer a) = None ->
        chatList (fetchData a st) = groupChatItems (orEmpty (data (groupsAnswer a)))
        /\ allUsers (fetchData a st) = allUsers st).
Proof.
  intros a st p Hp.
  destruct (fetchData_cases a st) as [[Hno _]|[[_ [Hnp _]]|[q [userId [Hq E]]]]].
  - destruct Hp as [Ha _]. contradiction.
  - now elim (Hnp p).
  - assert (q = p).
    { destruct Hp as [_ [_ Hp]], Hq as [_ [_ Hq]]. congruence. }
    subst q. rewrite E. unfold fetchLists.
    destruct (error (usersAnswer a)) as [um|], (error (groupsAnswer a)) as [gm|];
      simpl; repeat split; intros; try reflexivity; try congruence;
      try (now elim H).
    + match goal with H : data (usersAnswer a) = None |- _ => rewrite H end.
      reflexivity.
Qed.


(** Dropping items keeps their keys distinct. *)
Lemma distinct_keys_after_filter {Item Key : Type} (key : Item -> Key)
      (keep : Item -> bool) (items : list Item) :
  NoDup (map key items) -> NoDup (map key (filter keep items)).
Proof.
  induction items as [|x items IH]; simpl; intros H; [constructor|].
  inversion H as [|? ? Hnot Hrest]; subst.
  destruct (keep x); simpl; [|now apply IH].
  constructor; [|now apply IH].
  intros Hin. apply Hnot. apply in_map_iff in Hin. destruct Hin as [y [Hy Hin]].
  apply filter_In in Hin. apply in_map_iff. exists y. tauto.
Qed.

(** An injective key keeps distinct items distinct. *)
Lemma distinct_keys_of_injective {Item Key : Type} (key : Item -> Key)
      (items : list Item) :
  (forall x y, key x = key y -> x = y) -> NoDup items -> NoDup (map key items).
Proof.
  intros Hinj. induction 1 as [|x items Hnot _ IH]; simpl; constructor; [|exact IH].
  intros Hin. apply in_map_iff in Hin. destruct Hin as [y [Hy Hin]].
  apply Hinj in Hy. now subst y.
Qed.

(** X15.  When the profiles have distinct ids and the groups have distinct
    ids, the keys of the chat list are distinct: comparing keys, as the
    click handler does, tells the chats apart. *)
Theorem chat_list_keys_distinct :
  forall (usersData : list Profile.t) (me : Profile.t) (groupsData : list Group.t),
    NoDup (map Profile.id usersData) ->
    NoDup (map Group.id groupsData) ->
    NoDup (map chat_id (dmChatItems usersData me ++ groupChatItems groupsData)).
Proof.
  intros usersData me groupsData Hu Hg.
  unfold dmChatItems, groupChatItems. rewrite map_app, !map_map. simpl.
  apply NoDup_app.
  - rewrite <- (map_map Profile.id (String.append "dm-")).
    apply distinct_keys_of_injective; [apply append_cancel_l|].
    now apply distinct_keys_after_filter.
  - rewrite <- (map_map Group.id (fun n => "group-" ++ numberToString n)).
    apply distinct_keys_of_injective; [|exact Hg].
    intros x y H. apply append_cancel_l in H. now apply numberToString_inj.
  - intros k Hk Hk'. apply in_map_iff in Hk, Hk'.
    destruct Hk as [p [<- _]], Hk' as [g [H _]].
    apply (f_equal (String.get 0)) in H. simpl in H. discriminate H.
Qed.

(* ================================================================== *)
(** ** Creating a group *)

(** The ways [handleCreateGroup] ends once the guard is passed: an alert and
    nothing else after [getUser] disagrees or an insert fails (with the
    group deleted again if it was the members that failed), or the success
    path. *)
Lemma handleCreateGroup_cases (a : CreateGroupAnswers) (st : PageState) :
  (handleCreateGroup a st = st
   /\ (trim (newGroupName st) = "" \/ currentUser (chat st) = None))
  \/ ((forall g u, ~ (groupCreated a st g u /\ membersInsertError a = None))
      /\ chat (handleCreateGroup a st) = chat st
      /\ chatList (handleCreateGroup a st) = chatList st
      /\ showCreateGroupModal (handleCreateGroup a st) = showCreateGroupModal st
      /\ newGroupName (handleCreateGroup a st) = newGroupName st
      /\ selectedUserIdsForGroup (handleCreateGroup a st) = selectedUserIdsForGroup st
      /\ (exists pre text,
            trace (handleCreateGroup a st) = (trace st ++ pre ++ [PageAlert text])%list
            /\ forall i, In (DeleteGroup i) pre
                         <-> exists g u, groupCreated a st g u
                                         /\ membersInsertError a <> None
                                         /\ i = Group.id g))
  \/ (exists g u,
        groupCreated a st g u /\ membersInsertError a = None
        /\ handleCreateGroup a st
           = setSelectedUserIdsForGroup (fun _ => [])
               (setNewGroupName ""
                  (setShowCreateGroupModal false
                     (setChat
                        (fun c => selectedChatEffect
                                    (setMessages (fun _ => [])
                                       (setSelectedChat
                                          (Some (group g ("group-"
                                                          ++ numberToString (Group.id g))))
                                          c)))
                        (setChatList
                           (fun prev =>
                              (prev ++ [group g ("group-"
                                                 ++ numberToString (Group.id g))])%list)
                           (perform (InsertGroupMembers
                                       (membersToInsert g u (selectedUserIdsForGroup st)))
                              (perform (InsertGroup (newGroupName st) (Profile.id u))
                                 (perform AuthGetUser st)))))))).
Proof.
  unfold handleCreateGroup.
  destruct (String.eqb (trim (newGroupName st)) "") eqn:Ht.
  { left. split; [reflexivity|]. left. now apply String.eqb_eq. }
  apply String.eqb_neq in Ht.
  destruct (currentUser (chat st)) as [u|] eqn:Hu; [|left; auto].
  assert (Hsame : forall g u', groupCreated a st g u' -> u' = u).
  { intros g u' [_ [H _]]. congruence. }
  destruct (authUserAnswer a) as [authId|] eqn:Ha.
  2:{ right. left. simpl. split; [intros g u' [[_ [_ [H _]]] _]; congruence|].
      repeat split; try reflexivity.
      eexists [_; _], _. split; [simpl; now rewrite <- !app_assoc|].
      intros i. split; [intros H; trace_cases H|].
      intros [g [u' [[_ [_ [H _]]] _]]]. congruence. }
  destruct (String.eqb (Profile.id u) authId) eqn:Hid; simpl.
  2:{ right. left. split.
      { intros g u' [[_ [H1 [H2 _]]] _].
        assert (u' = u) by congruence. subst u'.
        assert (authId = Profile.id u) by congruence. subst authId.
        now rewrite String.eqb_refl in Hid. }
      repeat split; try reflexivity.
      eexists [_; _], _. split; [simpl; now rewrite <- !app_assoc|].
      intros i. split; [intros H; trace_cases H|].
      intros [g [u' [[_ [H1 [H2 _]]] _]]].
      assert (u' = u) by congruence. subst u'.
      assert (authId = Profile.id u) by congruence. subst authId.
      now rewrite String.eqb_refl in Hid. }
  apply String.eqb_eq in Hid. subst authId.
  destruct (error (groupInsertAnswer a)) as [gm|] eqn:He.
  { right. left. split; [intros g u' [[_ [_ [_ [H _]]]] _]; congruence|].
    repeat split; try reflexivity.
    eexists [_; _; _], _. split; [simpl; now rewrite <- !app_assoc|].
    intros i. split; [intros H; trace_cases H|].
    intros [g [u' [[_ [_ [_ [H _]]]] _]]]. congruence. }
  destruct (data (groupInsertAnswer a)) as [g|] eqn:Hd.
  2:{ right. left. split; [intros g u' [[_ [_ [_ [_ H]]]] _]; congruence|].
      repeat split; try reflexivity.
      eexists [_; _; _], _. split; [simpl; now rewrite <- !app_assoc|].
      intros i. split; [intros H; trace_cases H|].
      intros [g [u' [[_ [_ [_ [_ H]]]] _]]]. congruence. }
  assert (Hcreated : groupCreated a st g u) by (repeat split; auto).
  destruct (membersInsertError a) as [mm|] eqn:Hm.
  - right. left. split; [intros g' u' [_ H]; congruence|].
    repeat split; try reflexivity.
    eexists [_; _; _; _; _; _], _. split; [simpl; now rewrite <- !app_assoc|].
    intros i. split.
    + intros H. trace_cases H. injection H as <-.
      exists g, u. split; [exact Hcreated|]. split; [discriminate|reflexivity].
    + intros [g' [u' [[_ [_ [_ [_ H]]]] [_ ->]]]].
      assert (g' = g) by congruence. subst g'. simpl. auto 10.
  - right. right. exists g, u. split; [exact Hcreated|]. split; reflexivity.
Qed.

(** X16.  A group enters the chat list only when the whole creation went
    through: a name that is not blank, a user confirmed by [getUser], the
    group row stored and the member rows stored.  Then the new group is the
    last entry of the list and the selected chat, the message store is
    empty, the history of the group is requested, the dialog is closed and
    its inputs are reset.  In every other case the chat state, the chat
    list and the dialog with its inputs stay as they were. *)
Theorem group_listed_only_after_full_success :
  forall (a : CreateGroupAnswers) (st : PageState),
    (forall g u,
        groupCreated a st g u -> membersInsertError a = None ->
        let item := group g ("group-" ++ numberToString (Group.id g)) in
        chatList (handleCreateGroup a st) = (chatList st ++ [item])%list
        /\ selectedChat (chat (handleCreateGroup a st)) = Some item
        /\ messages (chat (handleCreateGroup a st)) = []
        /\ effects (chat (handleCreateGroup a st))
           = (effects (chat st) ++ [DbSelect item u])%list
        /\ showCreateGroupModal (handleCreateGroup a st) = false
        /\ newGroupName (handleCreateGroup a st) = ""
        /\ selectedUserIdsForGroup (handleCreateGroup a st) = [])
    /\ ((forall g u, ~ (groupCreated a st g u /\ membersInsertError a = None)) ->
        chat (handleCreateGroup a st) = chat st
        /\ chatList (handleCreateGroup a st) = chatList st
        /\ showCreateGroupModal (handleCreateGroup a st) = showCreateGroupModal st
        /\ newGroupName (handleCreateGroup a st) = newGroupName st
        /\ selectedUserIdsForGroup (handleCreateGroup a st) = selectedUserIdsForGroup st).
Proof.
  intros a st.
  destruct (handleCreateGroup_cases a st)
    as [[E Hwhy]|[[Hno [H1 [H2 [H3 [H4 [H5 _]]]]]]|[g [u [Hc [Hm E]]]]]].
  - split.
    + intros g u [Ht [Hu _]] _. destruct Hwhy as [H|H]; [contradiction|congruence].
    + intros _. rewrite E. now repeat split.
  - split; [|now intros _].
    intros g u Hc Hm. now elim (Hno g u).
  - split.
    + intros g' u' Hc' _ item.
      assert (u' = u) by (destruct Hc as [_ [A _]], Hc' as [_ [B _]]; congruence).
      assert (g' = g)
        by (destruct Hc as [_ [_ [_ [_ A]]]], Hc' as [_ [_ [_ [_ B]]]]; congruence).
      subst u' g' item. rewrite E. simpl.
      destruct Hc as [_ [Hu _]]. unfold selectedChatEffect. simpl. rewrite Hu.
      now repeat split.
    + intros Hno. now elim (Hno g u).
Qed.

(** X17.  The group row is deleted again exactly when it was stored and the
    member rows were refused; and every attempt that passes the guard and
    does not go through ends with an alert. *)
Theorem group_rollback_and_alert :
  forall (a : CreateGroupAnswers) (st : PageState),
    (forall i, In (DeleteGroup i) (trace (handleCreateGroup a st))
               <-> In (DeleteGroup i) (trace st)
                   \/ exists g u, groupCreated a st g u
                                  /\ membersInsertError a <> None
                                  /\ i = Group.id g)
    /\ (trim (newGroupName st) <> "" -> currentUser (chat st) <> None ->
        (forall g u, ~ (groupCreated a st g u /\ membersInsertError a = None)) ->
        exists pre text,
          trace (handleCreateGroup a st) = (trace st ++ pre ++ [PageAlert text])%list).
Proof.
  intros a st.
  destruct (handleCreateGroup_cases a st)
    as [[E Hwhy]|[[Hno [_ [_ [_ [_ [_ [pre [text [Etr Hdel]]]]]]]]]|[g [u [Hc [Hm E]]]]]].
  - split.
    + intros i. rewrite E. split; [auto|].
      intros [H|[g [u [[Ht [Hu _]] _]]]]; [exact H|].
      destruct Hwhy as [H|H]; [contradiction|congruence].
    + intros Ht Hu _. destruct Hwhy; contradiction.
  - split; [|intros _ _ _; eauto].
    intros i. rewrite Etr, !in_app_iff, Hdel. simpl.
    split; [intros [H|[H|[H|[]]]]; auto; discriminate H|].
    intros [H|H]; auto.
  - split; [|intros _ _ Hno; now elim (Hno g u)].
    intros i. rewrite E. split.
    + intros H. trace_cases H. now left.
    + intros [H|[g' [u' [_ [H _]]]]]; [|congruence].
      simpl. repeat rewrite in_app_iff. auto.
Qed.

(* ================================================================== *)
(** ** The member checkboxes and the sender line *)

(** X18.  After a click on a member checkbox the box shows what was
    clicked, the boxes of the other users are unchanged, and, the click
    having flipped the box, a selection without repetitions stays without
    repetitions. *)
Theorem member_checkbox :
  forall (checked : bool) (userId : string) (st : PageState),
    memberChecked userId (onMemberCheckboxChange checked userId st) = checked
    /\ (forall other, other <> userId ->
                      memberChecked other (onMemberCheckboxChange checked userId st)
                      = memberChecked other st)
    /\ (checked = negb (memberChecked userId st) ->
        NoDup (selectedUserIdsForGroup st) ->
        NoDup (selectedUserIdsForGroup (onMemberCheckboxChange checked userId st))).
Proof.
  intros checked userId st. unfold memberChecked, onMemberCheckboxChange. simpl.
  set (l := selectedUserIdsForGroup st).
  assert (Hfilter : forall x,
             existsb (String.eqb x) (filter (fun id => negb (String.eqb id userId)) l)
             = existsb (String.eqb x) l && negb (String.eqb x userId)).
  { intros x. induction l as [|y l IH]; simpl; [reflexivity|].
    destruct (String.eqb y userId) eqn:E; simpl; rewrite IH.
    - apply String.eqb_eq in E. subst y.
      destruct (String.eqb x userId); simpl; [now rewrite andb_false_r|reflexivity].
    - destruct (String.eqb x y) eqn:F; simpl; [|reflexivity].
      apply String.eqb_eq in F. subst y. now rewrite E. }
  split; [|split].
  - destruct checked.
    + rewrite existsb_app. simpl. rewrite String.eqb_refl. apply orb_true_r.
    + rewrite Hfilter, String.eqb_refl. apply andb_false_r.
  - intros other Hne. apply String.eqb_neq in Hne. destruct checked.
    + rewrite existsb_app. simpl. rewrite Hne. now rewrite !orb_false_r.
    + rewrite Hfilter, Hne. apply andb_true_r.
  - intros Hflip Hnd. destruct checked.
    + symmetry in Hflip. apply negb_true_iff in Hflip.
      apply NoDup_app; [exact Hnd|repeat constructor; auto|].
      intros x Hx [E|[]]. subst x.
      assert (existsb (String.eqb userId) l = true)
        by (apply existsb_exists; exists userId; split; [exact Hx|apply String.eqb_refl]).
      congruence.
    + now apply NoDup_filter.
Qed.

(** The first profile of a list with a given id is the one [find] returns. *)
Lemma find_first_profile (senderId : string) (before after : list Profile.t)
      (p : Profile.t) :
  (forall q, In q before -> Profile.id q <> senderId) ->
  Profile.id p = senderId ->
  find (fun u => String.eqb (Profile.id u) senderId) (before ++ p :: after) = Some p.
Proof.
  intros Hbefore Hp. induction before as [|q before IH]; simpl.
  - now rewrite Hp, String.eqb_refl.
  - assert (Hq : Profile.id q <> senderId) by (apply Hbefore; now left).
    apply String.eqb_neq in Hq. rewrite Hq. apply IH.
    intros r Hr. apply Hbefore. now right.
Qed.

(** X19.  A sender line is shown exactly in a group chat above a message of
    somebody else, and it is never empty.  Its text is the user name of
    the first profile of the user list with the sender's id when that name
    is not empty, and ['User'] when the name is empty or the list has no
    profile with that id. *)
Theorem sender_label :
  forall (st : PageState) (message : Message.t),
    (forall label,
        senderLabel st message = Some label ->
        label <> ""
        /\ (exists g k, selectedChat (chat st) = Some (group g k))
        /\ (exists u, currentUser (chat st) = Some u
                      /\ Message.sender_id message <> Profile.id u)
        /\ (label = "User"
            \/ exists p, In p (allUsers st)
                         /\ Profile.id p = Message.sender_id message
                         /\ Profile.username p = label))
    /\ (forall g k u,
          selectedChat (chat st) = Some (group g k) ->
          currentUser (chat st) = Some u ->
          Message.sender_id message <> Profile.id u ->
          (forall before p after,
              allUsers st = (before ++ p :: after)%list ->
              (forall q, In q before -> Profile.id q <> Message.sender_id message) ->
              Profile.id p = Message.sender_id message ->
              (Profile.username p <> "" ->
               senderLabel st message = Some (Profile.username p))
              /\ (Profile.username p = "" -> senderLabel st message = Some "User"))
          /\ ((forall q, In q (allUsers st) ->
                         Profile.id q <> Message.sender_id message) ->
              senderLabel st message = Some "User"))
    /\ (senderLabel st message = None
        <-> currentUser (chat st) = None
            \/ (forall g k, selectedChat (chat st) <> Some (group g k))
            \/ (exists u, currentUser (chat st) = Some u
                          /\ Message.sender_id message = Profile.id u)).
Proof.
  intros st message. split; [|split].
  - intros label. unfold senderLabel.
    destruct (currentUser (chat st)) as [u|]; [|discriminate].
    destruct (selectedChat (chat st)) as [[p k|g k]|]; try discriminate.
    destruct (String.eqb (Message.sender_id message) (Profile.id u)) eqn:Hmine;
      [discriminate|].
    apply String.eqb_neq in Hmine. intros H. injection H as H.
    assert (Hctx : (exists g0 k0, Some (group g k) = Some (group g0 k0))
                   /\ (exists u0, Some u = Some u0
                                  /\ Message.sender_id message <> Profile.id u0))
      by (split; eauto).
    destruct Hctx as [Hg Hu].
    destruct (find _ (allUsers st)) as [p|] eqn:F.
    + apply find_some in F. destruct F as [Hp Hid]. apply String.eqb_eq in Hid.
      destruct (String.eqb (Profile.username p) "") eqn:N.
      * subst label. repeat split; auto. discriminate.
      * apply String.eqb_neq in N. subst label. repeat split; auto.
        right. exists p. auto.
    + subst label. repeat split; auto. discriminate.
  - intros g k u Hc Hu Hne. unfold senderLabel. rewrite Hu, Hc.
    apply String.eqb_neq in Hne. rewrite Hne. split.
    + intros before p after Hl Hbefore Hp.
      rewrite Hl, (find_first_profile _ before after p Hbefore Hp). split.
      * intros Hn. apply String.eqb_neq in Hn. now rewrite Hn.
      * intros Hn. now rewrite Hn.
    + intros Hnone.
      destruct (find _ (allUsers st)) as [p|] eqn:F; [|reflexivity].
      apply find_some in F. destruct F as [Hp Hid]. apply String.eqb_eq in Hid.
      now elim (Hnone p Hp).
  - unfold senderLabel.
    destruct (currentUser (chat st)) as [u|]; [|split; auto].
    destruct (selectedChat (chat st)) as [[p k|g k]|].
    + split; [intros _|reflexivity]. right. left. intros g k' H. discriminate H.
    + destruct (String.eqb (Message.sender_id message) (Profile.id u)) eqn:Hmine.
      * apply String.eqb_eq in Hmine. split; [intros _|reflexivity].
        right. right. eauto.
      * apply String.eqb_neq in Hmine. split; [discriminate|].
        intros [H|[H|[u' [H1 H2]]]].
        -- discriminate H.
        -- now elim (H g k).
        -- injection H1 as <-. contradiction.
    + split; [intros _|reflexivity]. right. left. intros g k' H. discriminate H.
Qed.

(* ================================================================== *)
(** ** The login form *)

(** X20.  [handleSubmit] leaves the login page only after a sign-in without
    error, and then for [/chat]; a sign-up never navigates.  The error line
    is empty exactly after such a sign-in.  In every other case it holds
    the message of this submit: the error of the refused sign-in or
    sign-up, or the page's own text for a sign-up without user, with a
    refused profile, or completed.  What the line showed before has no
    influence on what it shows afterwards. *)
Theorem submit_navigation_and_message :
  forall (a : Login.Answers) (st : Login.State),
    (forall path, In (Login.RouterPush path) (Login.trace (Login.handleSubmit a st))
                  <-> In (Login.RouterPush path) (Login.trace st)
                      \/ (Login.isSignup st = false /\ Login.signInError a = None
                          /\ path = "/chat"))
    /\ (Login.error (Login.handleSubmit a st) = None
        <-> Login.isSignup st = false /\ Login.signInError a = None)
    /\ (forall previous,
          Login.error (Login.handleSubmit a (Login.setError previous st))
          = Login.error (Login.handleSubmit a st))
    /\ (forall message,
          Login.isSignup st = false -> Login.signInError a = Some message ->
          Login.error (Login.handleSubmit a st) = Some message)
    /\ (forall message,
          Login.isSignup st = true -> error (Login.signUpAnswer a) = Some message ->
          Login.error (Login.handleSubmit a st) = Some message)
    /\ (Login.isSignup st = true -> error (Login.signUpAnswer a) = None ->
        data (Login.signUpAnswer a) = None ->
        Login.error (Login.handleSubmit a st)
        = Some "An unexpected issue occurred during signup. Please try again.")
    /\ (forall userId message,
          Login.isSignup st = true -> error (Login.signUpAnswer a) = None ->
          data (Login.signUpAnswer a) = Some userId ->
          Login.upsertError a = Some message ->
          Login.error (Login.handleSubmit a st)
          = Some ("Signup successful, but profile creation failed: " ++ message
                  ++ ". Please try logging in or contact support."))
    /\ (forall userId,
          Login.isSignup st = true -> error (Login.signUpAnswer a) = None ->
          data (Login.signUpAnswer a) = Some userId ->
          Login.upsertError a = None ->
          Login.error (Login.handleSubmit a st)
          = Some "Signup successful! Please check your email to confirm your account before logging in.").
Proof.
  intros a st.
  assert (Hnav : forall path,
             In (Login.RouterPush path) (Login.trace (Login.handleSubmit a st))
             <-> In (Login.RouterPush path) (Login.trace st)
                 \/ (Login.isSignup st = false /\ Login.signInError a = None
                     /\ path = "/chat")).
  { unfold Login.handleSubmit, Login.answerError. simpl.
    destruct (Login.isSignup st) eqn:Hs.
    - destruct (error (Login.signUpAnswer a)) as [m|].
      + intros path. split; [intros H; trace_cases H; now left|].
        intros [H|[H _]]; [|discriminate H]. simpl. rewrite in_app_iff. auto.
      + destruct (data (Login.signUpAnswer a)) as [userId|].
        * destruct (Login.upsertError a) as [um|]; simpl;
            intros path; (split; [intros H; trace_cases H; now left|]);
            intros [H|[H _]]; try discriminate H; repeat rewrite in_app_iff; auto.
        * intros path. split; [intros H; trace_cases H; now left|].
          intros [H|[H _]]; [|discriminate H]. simpl. rewrite in_app_iff. auto.
    - destruct (Login.signInError a) as [m|]; simpl.
      + intros path. split; [intros H; trace_cases H; now left|].
        intros [H|[_ [H _]]]; [|discriminate H]. rewrite in_app_iff. auto.
      + intros path. split.
        * intros H. trace_cases H; [now left|]. injection H as <-. auto.
        * intros [H|[_ [_ ->]]]; repeat rewrite in_app_iff; simpl; auto. }
  split; [exact Hnav|]. clear Hnav.
  unfold Login.handleSubmit, Login.answerError. simpl.
  destruct (Login.isSignup st) eqn:Hs.
  - destruct (error (Login.signUpAnswer a)) as [m|].
    + repeat split; intros; simpl; try congruence; try discriminate.
      destruct H as [H _]. discriminate H.
    + destruct (data (Login.signUpAnswer a)) as [userId|].
      * destruct (Login.upsertError a) as [um|]; simpl;
          repeat split; intros; simpl; try congruence; try discriminate;
          destruct H as [H _]; discriminate H.
      * repeat split; intros; simpl; try congruence; try discriminate.
        destruct H as [H _]. discriminate H.
  - destruct (Login.signInError a) as [m|]; simpl;
      repeat split; intros; simpl; try congruence; try discriminate; auto.
    destruct H as [_ H]. discriminate H.
Qed.

(** X21.  The form is emptied and switched to sign-in exactly when the
    sign-up ran through (new user and profile stored).  After anything
    else (a refused sign-up, a refused profile, any sign-in) the typed
    email, password and user name and the mode are as before. *)
Theorem form_reset_only_after_signup :
  forall (a : Login.Answers) (st : Login.State),
    (signedUp a st ->
     Login.email (Login.handleSubmit a st) = ""
     /\ Login.password (Login.handleSubmit a st) = ""
     /\ Login.username (Login.handleSubmit a st) = ""
     /\ Login.isSignup (Login.handleSubmit a st) = false)
    /\ (~ signedUp a st ->
        Login.email (Login.handleSubmit a st) = Login.email st
        /\ Login.password (Login.handleSubmit a st) = Login.password st
        /\ Login.username (Login.handleSubmit a st) = Login.username st
        /\ Login.isSignup (Login.handleSubmit a st) = Login.isSignup st).
Proof.
  intros a st. unfold signedUp, Login.handleSubmit, Login.answerError. simpl.
  destruct (Login.isSignup st) eqn:Hs.
  - destruct (error (Login.signUpAnswer a)) as [m|].
    + split; [intros [_ [H _]]; discriminate H|intros _; simpl; auto].
    + destruct (data (Login.signUpAnswer a)) as [userId|].
      * destruct (Login.upsertError a) as [um|]; simpl.
        -- split; [intros [_ [_ [_ H]]]; discriminate H|intros _; auto].
        -- split; [intros _; auto|]. intros H. elim H. repeat split; eauto.
      * split; [intros [_ [_ [[x H] _]]]; discriminate H|intros _; simpl; auto].
  - split; [intros [H _]; discriminate H|].
    intros _. destruct (Login.signInError a); simpl; auto.
Qed.

(** X22.  A profile row is written only during a sign-up that produced a
    user, for that user's id and the user name typed in the form; a sign-in
    or a refused sign-up never writes one. *)
Theorem profile_upsert_only_after_signup :
  forall (a : Login.Answers) (st : Login.State) (id name : string),
    In (Login.UpsertProfile id name) (Login.trace (Login.handleSubmit a st))
    <-> In (Login.UpsertProfile id name) (Login.trace st)
        \/ (Login.isSignup st = true
            /\ error (Login.signUpAnswer a) = None
            /\ data (Login.signUpAnswer a) = Some id
            /\ name = Login.username st).
Proof.
  intros a st id name. unfold Login.handleSubmit, Login.answerError. simpl.
  destruct (Login.isSignup st) eqn:Hs.
  - destruct (error (Login.signUpAnswer a)) as [m|].
    + split; [intros H; trace_cases H; now left|].
      intros [H|[_ [H _]]]; [|discriminate H]. simpl. rewrite in_app_iff. auto.
    + destruct (data (Login.signUpAnswer a)) as [userId|].
      * destruct (Login.upsertError a) as [um|]; simpl;
          (split;
           [intros H; trace_cases H; [now left|];
            injection H as <- <-; right; auto
           |intros [H|[_ [_ [H ->]]]];
            [repeat rewrite in_app_iff; auto|];
            injection H as <-; repeat rewrite in_app_iff; simpl; auto]).
      * split; [intros H; trace_cases H; now left|].
        intros [H|[_ [_ [H _]]]]; [|discriminate H]. simpl. rewrite in_app_iff. auto.
  - split.
    + intros H. destruct (Login.signInError a); trace_cases H; now left.
    + intros [H|[H _]]; [|discriminate H].
      destruct (Login.signInError a); simpl; repeat rewrite in_app_iff; auto.
Qed.

(* ================================================================== *)
(** ** Worked examples for the further properties *)

(** The confirmation of alice's "hi" meets a store with one match. *)
Lemma merge_preserves_unique_ids_witness :
  noDuplicatePersistedIds [Example.hello; Example.temp1]
  /\ (List.length (filter (hit Example.confirmed1) [Example.hello; Example.temp1]) <= 1)%nat
  /\ noDuplicatePersistedIds
       (mergeIncoming isoTime Example.alice Example.confirmed1
                      [Example.hello; Example.temp1]).
Proof.
  assert (H1 : noDuplicatePersistedIds [Example.hello; Example.temp1]).
  { unfold noDuplicatePersistedIds. simpl. repeat constructor. simpl. tauto. }
  assert (H2 : (List.length (filter (hit Example.confirmed1)
                               [Example.hello; Example.temp1]) <= 1)%nat).
  { vm_compute. constructor. }
  split; [exact H1|]. split; [exact H2|].
  exact (merge_preserves_unique_ids isoTime Example.alice Example.confirmed1
           [Example.hello; Example.temp1] H1 H2).
Defined.

Lemma listener_is_callback_witness :
  (forall partner k,
      selectedChat (Example.withBob [Example.hello] "") = Some (dm partner k) ->
      Profile.id partner <> "")
  /\ openChatListener isoTime {| new := Example.confirmed1 |}
                      (Example.withBob [Example.hello] "")
     = handleRealtimeMessageCallback isoTime {| new := Example.confirmed1 |}
                                     (Example.withBob [Example.hello] "").
Proof.
  assert (H : forall partner k,
             selectedChat (Example.withBob [Example.hello] "") = Some (dm partner k) ->
             Profile.id partner <> "").
  { simpl. intros partner k E. injection E as <- _. discriminate. }
  split; [exact H|].
  exact (proj1 (listener_is_callback isoTime {| new := Example.confirmed1 |}
                  (Example.withBob [Example.hello] "") H)).
Defined.

(** Scenario 1 of the specification: the optimistic append. *)
Lemma submit_appends_temp_witness :
  trim (newMessage (Example.withBob [Example.hello] "hi")) <> ""
  /\ exists st1 pending,
       handleSendMessage isoTime "1700000000000-k3x9q2m1a" "2023-11-14T22:13:20.000Z"
                         (Example.withBob [Example.hello] "hi")
       = (st1, Some pending)
       /\ isForActiveChat Example.alice Example.chatBob (tempMessage pending) = true
       /\ newMessage st1 = "".
Proof.
  assert (H : trim (newMessage (Example.withBob [Example.hello] "hi")) <> "")
    by (vm_compute; discriminate).
  split; [exact H|].
  destruct (submit_appends_temp isoTime "1700000000000-k3x9q2m1a"
              "2023-11-14T22:13:20.000Z" (Example.withBob [Example.hello] "hi")
              Example.chatBob Example.alice H eq_refl eq_refl)
    as [st1 [pending [E [_ [_ [_ [_ [_ [Hscope [_ [_ [_ [_ [Hinput _]]]]]]]]]]]]]].
  exists st1, pending. split; [exact E|]. split; [exact Hscope|exact Hinput].
Defined.

Lemma success_retires_temp_witness :
  (forall e, In e (messages Example.afterSend) ->
             Message.id e <> Message.id Example.confirmed1)
  /\ Message.id Example.confirmed1 <> Message.id (tempMessage Example.pending1)
  /\ In Example.confirmed1
        (messages (handleSendMessage_resume isoTime Example.pending1
                     (Example.succeeded Example.confirmed1) Example.afterSend)).
Proof.
  assert (H1 : forall e, In e (messages Example.afterSend) ->
                         Message.id e <> Message.id Example.confirmed1).
  { simpl. intros e [<-|[<-|[]]]; discriminate. }
  assert (H2 : Message.id Example.confirmed1 <> Message.id (tempMessage Example.pending1))
    by discriminate.
  split; [exact H1|]. split; [exact H2|].
  apply (proj2 (success_retires_temp isoTime Example.pending1 Example.confirmed1
                  Example.afterSend H1 H2)).
  exists Example.temp1. split; [simpl; auto|reflexivity].
Defined.

(** The confirmed row is already in the store when the success answer
    arrives, and the temporary entry was not matched: it stays. *)
Lemma success_with_existing_keeps_others_witness :
  In Example.confirmed1 [Example.hello; Example.confirmed1; Example.temp2]
  /\ In Example.temp2
        (messages (handleSendMessage_resume isoTime
                     {| tempMessage := Example.temp2; dbPayload := Example.hiPayload |}
                     (Example.succeeded Example.confirmed1)
                     (Example.withBob
                        [Example.hello; Example.confirmed1; Example.temp2] ""))).
Proof.
  assert (H : In Example.confirmed1
                 [Example.hello; Example.confirmed1; Example.temp2])
    by (simpl; auto).
  split; [exact H|].
  apply (proj1 (proj2 (success_with_existing_keeps_others isoTime
                         {| tempMessage := Example.temp2;
                            dbPayload := Example.hiPayload |}
                         Example.confirmed1
                         (Example.withBob
                            [Example.hello; Example.confirmed1; Example.temp2] "")
                         Example.confirmed1 H eq_refl))).
  - simpl. auto.
  - discriminate.
Defined.

Lemma accepted_event_passes_channel_filter_witness :
  isForActiveChat Example.alice Example.chatTeam Example.groupPost = true
  /\ passesChannelFilter Example.chatTeam Example.groupPost = true.
Proof.
  split; [reflexivity|].
  exact (accepted_event_passes_channel_filter Example.alice Example.chatTeam
           Example.groupPost eq_refl).
Defined.

(** The profiles arrive but the groups query is refused: no chat list. *)
Lemma chat_list_depends_on_groups_query_witness :
  profileLoaded PageExample.groupsDown Example.alice
  /\ allUsers (fetchData PageExample.groupsDown PageExample.mounted) = PageExample.users
  /\ chatList (fetchData PageExample.groupsDown PageExample.mounted) = [].
Proof.
  assert (H : profileLoaded PageExample.groupsDown Example.alice).
  { repeat split. now exists "u-alice". }
  split; [exact H|]. split; [reflexivity|].
  apply (proj1 (chat_list_depends_on_groups_query PageExample.groupsDown
                  PageExample.mounted Example.alice H)).
  discriminate.
Defined.

Lemma chat_list_keys_distinct_witness :
  NoDup (map Profile.id PageExample.users)
  /\ NoDup (map Group.id PageExample.groups)
  /\ NoDup (map chat_id (dmChatItems PageExample.users Example.alice
                         ++ groupChatItems PageExample.groups)).
Proof.
  assert (H1 : NoDup (map Profile.id PageExample.users)).
  { simpl. repeat constructor; simpl; intuition discriminate. }
  assert (H2 : NoDup (map Group.id PageExample.groups)).
  { simpl. repeat constructor. simpl. tauto. }
  split; [exact H1|]. split; [exact H2|].
  exact (chat_list_keys_distinct PageExample.users Example.alice PageExample.groups H1 H2).
Defined.

(** bob's post in the group is shown under his name, found behind alice in
    the user list. *)
Lemma sender_label_witness :
  selectedChat (chat PageExample.inTeam) = Some Example.chatTeam
  /\ currentUser (chat PageExample.inTeam) = Some Example.alice
  /\ Message.sender_id Example.groupPost <> Profile.id Example.alice
  /\ senderLabel PageExample.inTeam Example.groupPost = Some "bob".
Proof.
  assert (Hne : Message.sender_id Example.groupPost <> Profile.id Example.alice)
    by discriminate.
  split; [reflexivity|]. split; [reflexivity|]. split; [exact Hne|].
  apply (proj1 (proj1 (proj1 (proj2 (sender_label PageExample.inTeam Example.groupPost))
                         Example.team "group-3" Example.alice eq_refl eq_refl Hne)
                  [Example.alice] Example.bob [PageExample.nameless] eq_refl
                  ltac:(simpl; intros q [<-|[]]; discriminate) eq_refl)).
  discriminate.
Defined.

(** Scenario 1 of the specification, to its end: the send and its success
    answer. *)
Lemma send_then_success_adds_confirmed_witness :
  handleSendMessage isoTime "1700000000000-k3x9q2m1a" "2023-11-14T22:13:20.000Z"
                    (Example.withBob [Example.hello] "hi")
  = (Example.afterSend, Some Example.pending1)
  /\ Permutation (Example.confirmed1 :: messages (Example.withBob [Example.hello] "hi"))
                 (messages (handleSendMessage_resume isoTime Example.pending1
                              (Example.succeeded Example.confirmed1) Example.afterSend)).
Proof.
  assert (H1 : handleSendMessage isoTime "1700000000000-k3x9q2m1a"
                 "2023-11-14T22:13:20.000Z" (Example.withBob [Example.hello] "hi")
               = (Example.afterSend, Some Example.pending1))
    by (vm_compute; reflexivity).
  assert (H2 : forall e, In e (messages (Example.withBob [Example.hello] "hi")) ->
                 Message.id e <> Message.Str ("temp-" ++ "1700000000000-k3x9q2m1a")).
  { simpl. intros e [<-|[]]. discriminate. }
  assert (H3 : forall e, In e (messages (Example.withBob [Example.hello] "hi")) ->
                 Message.id e <> Message.id Example.confirmed1).
  { simpl. intros e [<-|[]]. discriminate. }
  split; [exact H1|].
  exact (proj1 (send_then_success_adds_confirmed isoTime "1700000000000-k3x9q2m1a"
                  "2023-11-14T22:13:20.000Z" Example.confirmed1 7
                  (Example.withBob [Example.hello] "hi") Example.afterSend
                  Example.pending1 H1 eq_refl H2 H3)).
Defined.
